(** * AutoPost: the Blogger batch-publishing job of [post.js]

    A shallow embedding of the publishing pipeline of [post.js]
    (retry executor [postToBloggerWithRetry], batch driver
    [postToBlogger] and the top-level fatal handler), followed by
    theorems about its retry policy, pacing policy, progress cursor and
    failure handling.

    Line numbers are those of [post.js]; the script modelled is the
    current one, lines 1-355.

    The script is sequential JavaScript that mutates two shared [Set]s,
    a progress object and a handful of JSON files, calls a remote
    service, sleeps, and ends through [process.exit].  It is modelled
    in a state-and-exception monad over a [World] record; every
    externally visible action is appended to a trace. *)

From Stdlib Require Import ZArith List Bool Lia DecimalString Sorted.
From stdpp Require Import base decidable list strings.
From Equations Require Import Equations.

Local Open Scope string_scope.
Local Open Scope list_scope.
Local Open Scope Z_scope.

(** ** JavaScript values the script manipulates *)

(** [error.code] of a thrown error: absent, a number or a string. *)
Inductive JsCode :=
| CodeUndefined
| CodeNum (n : Z)
| CodeStr (s : string).

(** The fields of a thrown error that the script reads.  [errors] is the
    list of the [reason] fields of [error.errors]; an absent
    [error.errors] and an empty one behave alike in line 229 and are
    both [[]]. *)
Record JsError := mkError {
  message : string;
  code : JsCode;
  errors : list string
}.

(** A well-formed element of [posts.json]. *)
Record PostData := mkPost {
  title : string;
  content : string;
  labels : option (list string)
}.

(** An element of [posts.json] as parsed: a post with a string title,
    an element without a [title], or an element whose [title] is not a
    string (a number, a boolean, [null], an array or an object). *)
Inductive Entry :=
| Post (p : PostData)
| Untitled
| NonStringTitle.

(** The [requestBody] handed to [blogger.posts.insert]. *)
Record RequestBody := mkBody {
  rb_title : string;
  rb_content : string;
  rb_labels : list string
}.

(** [res.data] of a successful insert. *)
Record InsertData := mkData { url : string; id : string }.

Inductive InsertResult :=
| Inserted (d : InsertData)
| Rejected (e : JsError).

(** The value [postToBloggerWithRetry] resolves to. *)
Inductive Outcome :=
| Skipped
| Success (d : InsertData).

Record FailedEntry := mkFailed {
  index : Z;
  failed_title : string;
  error : string
}.

Record Progress := mkProgress {
  lastProcessed : Z;
  failed : list FailedEntry
}.

(** The report object of [generateReport] (its [timestamp], read from
    the clock, is left out). *)
Record Report := mkReport {
  terminationReason : string;
  totalPostsAttempted : Z;
  successfulPosts : Z;
  failedPosts : list FailedEntry;
  postedIdsCount : nat;
  existingTitlesCount : nat
}.

(** ** Strings *)

Module Str.

(** [s.startsWith(p)] *)
Fixpoint startsWith (p s : string) : bool :=
  match p, s with
  | EmptyString, _ => true
  | String _ _, EmptyString => false
  | String a p', String b s' => if Ascii.eqb a b then startsWith p' s' else false
  end.

(** [s.includes(p)] *)
Fixpoint includes (p s : string) : bool :=
  startsWith p s ||
  match s with
  | EmptyString => false
  | String _ s' => includes p s'
  end.

(** Decimal rendering of an integer, as a template literal prints it. *)
Definition of_Z (z : Z) : string := NilZero.string_of_int (Z.to_int z).

End Str.

(** ** JavaScript [Set] of strings

    A [Set] iterates in insertion order and [[...set]] is what the
    script persists, so a set is the list of its elements in insertion
    order. *)

Module JsSet.

Definition t := list string.

Definition has (s : t) (x : string) : bool := bool_decide (x ∈ s).

Definition add (s : t) (x : string) : t := if has s x then s else s ++ [x].

Definition size (s : t) : Z := Z.of_nat (length s).

(** [new Set(array)] *)
Definition of_array (l : list string) : t := fold_left add l [].

End JsSet.

(** ** Configuration (lines 16-21) *)

Module RATE_LIMIT.
Definition MAX_RETRIES : Z := 5.
Definition BASE_DELAY : Z := 10000.
Definition QUOTA_DELAY : Z := 3600000.
Definition MAX_POSTS_PER_HOUR : Z := 50.
End RATE_LIMIT.

(** ** The world the script acts on *)

(** The JSON files of the working directory.  [None] is a file that does
    not exist ([ENOENT]), for which [loadJsonFile] returns its default.
    A file that exists is taken to parse, and writes are taken to
    succeed. *)
Record Disk := mkDisk {
  posts_json : option (list Entry);
  posted_ids_json : option (list string);
  progress_json : option Progress;
  existing_titles_json : option (list string);
  failed_posts_json : option (list FailedEntry);
  reports : list Report
}.

(** What [sendWhatsAppMessage] is asked to send. *)
Inductive Notice :=
| NoticeStart (total already : Z)
| NoticeItemError (i : Z) (t msg : string)
| NoticeReport (r : Report)
| NoticeFinished (successCount failedCount : Z).

(** What [saveJsonFile] is asked to write. *)
Inductive Saved :=
| SavedPostedIds (l : list string)
| SavedExistingTitles (l : list string)
| SavedProgress (p : Progress)
| SavedFailedPosts (l : list FailedEntry)
| SavedReport (r : Report).

(** Externally visible actions, in the order they happen. *)
Inductive Event :=
| EItem (i : Z)                (* the per-item log line, line 281 *)
| EInsert (rb : RequestBody)   (* a call of blogger.posts.insert *)
| ESleep (ms : Z)              (* a setTimeout wait *)
| ENotify (n : Notice)         (* a call of sendWhatsAppMessage *)
| ESave (s : Saved).           (* a call of saveJsonFile *)

(** The objects shared by [postToBlogger] and [postToBloggerWithRetry]
    (the two sets and the progress object are mutated in place by both),
    the disk, and the trace. *)
Record World := mkWorld {
  postedIds : JsSet.t;
  existingTitles : JsSet.t;
  progress : Progress;
  postCountSinceLastSave : Z;
  disk : Disk;
  trace : list Event
}.

Definition set_postedIds (v : JsSet.t) (w : World) : World :=
  mkWorld v (existingTitles w) (progress w) (postCountSinceLastSave w) (disk w) (trace w).
Definition set_existingTitles (v : JsSet.t) (w : World) : World :=
  mkWorld (postedIds w) v (progress w) (postCountSinceLastSave w) (disk w) (trace w).
Definition set_progress (v : Progress) (w : World) : World :=
  mkWorld (postedIds w) (existingTitles w) v (postCountSinceLastSave w) (disk w) (trace w).
Definition set_postCountSinceLastSave (v : Z) (w : World) : World :=
  mkWorld (postedIds w) (existingTitles w) (progress w) v (disk w) (trace w).
Definition set_disk (v : Disk) (w : World) : World :=
  mkWorld (postedIds w) (existingTitles w) (progress w) (postCountSinceLastSave w) v (trace w).
Definition set_trace (v : list Event) (w : World) : World :=
  mkWorld (postedIds w) (existingTitles w) (progress w) (postCountSinceLastSave w) (disk w) v.

Definition isInsert (e : Event) : bool :=
  match e with EInsert _ => true | _ => false end.

(** Number of [blogger.posts.insert] calls in a trace. *)
Definition insertCalls (t : list Event) : nat := length (List.filter isInsert t).

(** ** The monad: state, exceptions and [process.exit] *)

Inductive Res (A : Type) :=
| Ret (a : A)          (* normal completion *)
| Throw (e : JsError)  (* a thrown error or rejected promise *)
| Exit (c : Z).        (* process.exit(c) *)
Arguments Ret {A} a.
Arguments Throw {A} e.
Arguments Exit {A} c.

Definition M (A : Type) : Type := World -> Res A * World.

Definition ret {A} (a : A) : M A := fun w => (Ret a, w).

Definition bind {A B} (m : M A) (k : A -> M B) : M B :=
  fun w =>
    match m w with
    | (Ret a, w') => k a w'
    | (Throw e, w') => (Throw e, w')
    | (Exit c, w') => (Exit c, w')
    end.

Definition throw {A} (e : JsError) : M A := fun w => (Throw e, w).

Definition process_exit {A} (c : Z) : M A := fun w => (Exit c, w).

(** [try { m } catch (error) { h error }]; [process.exit] is not caught. *)
Definition try_catch {A} (m : M A) (h : JsError -> M A) : M A :=
  fun w =>
    match m w with
    | (Throw e, w') => h e w'
    | r => r
    end.

Definition get : M World := fun w => (Ret w, w).

Definition modify (f : World -> World) : M unit := fun w => (Ret tt, f w).

Definition emit (e : Event) : M unit :=
  modify (fun w => set_trace (trace w ++ [e]) w).

Declare Scope js_scope.
Delimit Scope js_scope with js.
Notation "x <- m ;; k" := (bind m (fun x => k))
  (at level 100, m at next level, right associativity) : js_scope.
Notation "m ;; k" := (bind m (fun _ => k))
  (at level 100, right associativity) : js_scope.
Local Open Scope js_scope.

(** [new Error(msg)] *)
Definition newError (msg : string) : JsError := mkError msg CodeUndefined [].

(** [`${error.code}`] *)
Definition code_to_string (c : JsCode) : string :=
  match c with
  | CodeUndefined => "undefined"
  | CodeNum n => Str.of_Z n
  | CodeStr s => s
  end.

(** [error.code === n] *)
Definition code_is (e : JsError) (n : Z) : bool :=
  match code e with
  | CodeNum m => m =? n
  | _ => false
  end.

(** ** Storage and notification helpers *)

Definition write_file (s : Saved) (d : Disk) : Disk :=
  match s with
  | SavedPostedIds l =>
      mkDisk (posts_json d) (Some l) (progress_json d) (existing_titles_json d)
             (failed_posts_json d) (reports d)
  | SavedExistingTitles l =>
      mkDisk (posts_json d) (posted_ids_json d) (progress_json d) (Some l)
             (failed_posts_json d) (reports d)
  | SavedProgress p =>
      mkDisk (posts_json d) (posted_ids_json d) (Some p) (existing_titles_json d)
             (failed_posts_json d) (reports d)
  | SavedFailedPosts l =>
      mkDisk (posts_json d) (posted_ids_json d) (progress_json d) (existing_titles_json d)
             (Some l) (reports d)
  | SavedReport r =>
      mkDisk (posts_json d) (posted_ids_json d) (progress_json d) (existing_titles_json d)
             (failed_posts_json d) (reports d ++ [r])
  end.

(** [saveJsonFile(path, data)] (lines 80-89) *)
Definition saveJsonFile (s : Saved) : M unit :=
  modify (fun w => set_disk (write_file s (disk w)) w) ;;
  emit (ESave s).

(** [loadJsonFile(path, defaultValue)] (lines 65-77) *)
Definition loadJsonFile {A} (file : Disk -> option A) (defaultValue : A) : M A :=
  w <- get ;; ret (default defaultValue (file (disk w))).

(** [sendWhatsAppMessage] (lines 92-114): best effort, never throws. *)
Definition sendWhatsAppMessage (n : Notice) : M unit := emit (ENotify n).

(** [setTimeout] wait *)
Definition sleep (ms : Z) : M unit := emit (ESleep ms).

(** [loadPostedIds] (lines 146-148) *)
Definition loadPostedIds : M JsSet.t :=
  l <- loadJsonFile posted_ids_json [] ;; ret (JsSet.of_array l).

(** [savePostedIds] (lines 151-153) *)
Definition savePostedIds (postedIds : JsSet.t) : M unit :=
  saveJsonFile (SavedPostedIds postedIds).

(** [generateReport] (lines 117-143) *)
Definition generateReport (successCount : Z) (failedPosts : list FailedEntry)
    (terminationReason : string) : M unit :=
  ids <- loadPostedIds ;;
  titles <- loadJsonFile existing_titles_json [] ;;
  let report :=
    mkReport (if String.eqb terminationReason "" then "Completed normally"
              else terminationReason)
             (successCount + Z.of_nat (length failedPosts))
             successCount
             failedPosts
             (length ids)
             (length titles) in
  saveJsonFile (SavedReport report) ;;
  sendWhatsAppMessage (NoticeReport report).

(** ** The job *)

Section Job.

(** The remote service.  [blogger_insert n rb] is the answer to the
    call of [blogger.posts.insert] that follows [n] earlier calls of
    the run; any sequence of answers is such a function. *)
Variable blogger_insert : nat -> RequestBody -> InsertResult.

(** The titles that the listing loop of [fetchExistingTitles]
    (lines 166-186) has collected when it ends. *)
Variable blogger_listed : list string.

(** [blogger.posts.insert({ blogId, requestBody })] *)
Definition blogger_posts_insert (rb : RequestBody) : M InsertData :=
  w <- get ;;
  emit (EInsert rb) ;;
  match blogger_insert (insertCalls (trace w)) rb with
  | Inserted d => ret d
  | Rejected e => throw e
  end.

(** Lines 222-229. *)
Definition isRateLimitError (error : JsError) : bool :=
  code_is error 429 ||
  code_is error 403 ||
  Str.includes "quotaExceeded" (message error) ||
  Str.includes "Daily Limit Exceeded" (message error) ||
  Str.includes "User Rate Limit Exceeded" (message error) ||
  Str.includes "too many requests" (message error) ||
  existsb (fun reason => String.eqb reason "rateLimitExceeded" ||
                         String.eqb reason "userRateLimitExceeded")
          (errors error).

(** Lines 232-236: the [wait] of a retry. *)
Definition wait (error : JsError) (attempt : Z) : Z :=
  if Str.includes "quotaExceeded" (message error) || code_is error 403
  then RATE_LIMIT.QUOTA_DELAY
  else if code_is error 429
  then 60000
  else RATE_LIMIT.BASE_DELAY * 2 ^ (attempt - 1).

(** Lines 196-212: the body of the [try] block. *)
Definition tryPublish (postData : PostData) : M Outcome :=
  w <- get ;;
  if JsSet.has (postedIds w) (title postData) ||
     JsSet.has (existingTitles w) (title postData)
  then ret Skipped
  else
    data <- blogger_posts_insert
              (mkBody (title postData) (content postData)
                      (default [] (labels postData))) ;;
    modify (fun w => set_postedIds (JsSet.add (postedIds w) (title postData)) w) ;;
    modify (fun w => set_existingTitles (JsSet.add (existingTitles w) (title postData)) w) ;;
    w <- get ;;
    savePostedIds (postedIds w) ;;
    saveJsonFile (SavedExistingTitles (existingTitles w)) ;;
    ret (Success data).

(** Line 244. *)
Definition rateLimitExhausted (error : JsError) (attempt : Z) : JsError :=
  newError ("Rate limit exceeded after " +:+ Str.of_Z attempt +:+ " attempts: " +:+
            message error +:+ " (code: " +:+ code_to_string (code error) +:+ ")").

(** [postToBloggerWithRetry] (lines 194-249).  The recursion of line
    239 is guarded by [attempt < MAX_RETRIES], which is what makes it
    well founded. *)
Equations? postToBloggerWithRetry (postData : PostData) (attempt : Z) : M Outcome
  by wf (Z.to_nat (RATE_LIMIT.MAX_RETRIES - attempt)) lt :=
postToBloggerWithRetry postData attempt :=
  try_catch (tryPublish postData)
    (fun error =>
       match decide (isRateLimitError error = true /\ attempt < RATE_LIMIT.MAX_RETRIES) with
       | left _ =>
           sleep (wait error attempt) ;;
           postToBloggerWithRetry postData (attempt + 1)
       | right _ =>
           if isRateLimitError error
           then throw (rateLimitExhausted error attempt)
           else throw error
       end).
Proof. unfold RATE_LIMIT.MAX_RETRIES in *. lia. Qed.

(** [limiter.schedule(job)] (lines 24-27, 284).  The limiter runs one
    job at a time and spaces job starts in real time; it hands back
    the promise of the job, so it is transparent for the outcome and
    adds no modelled event. *)
Definition limiter_schedule {A} (job : M A) : M A := job.

(** [fetchExistingTitles] (lines 156-191) *)
Definition fetchExistingTitles : M JsSet.t :=
  cachedTitles <- loadJsonFile existing_titles_json [] ;;
  if (0 <? length cachedTitles)%nat
  then ret (JsSet.of_array cachedTitles)
  else
    let allTitles := JsSet.of_array blogger_listed in
    saveJsonFile (SavedExistingTitles allTitles) ;;
    ret allTitles.

(** [postsData[i]]: [undefined] outside [0 .. length-1]. *)
Definition at_index (postsData : list Entry) (i : Z) : option Entry :=
  if i <? 0 then None else postsData !! Z.to_nat i.

(** The [TypeError]s of lines 280-281. *)
Definition typeError_post_undefined : JsError :=
  newError "Cannot read properties of undefined (reading 'title')".
Definition typeError_title_undefined : JsError :=
  newError "Cannot read properties of undefined (reading 'substring')".
Definition typeError_not_a_function : JsError :=
  newError "post.title.substring is not a function".

(** Lines 316-318: the pacing delay, from [postedIds.size]. *)
Definition pacingDelay (postedCount : Z) : Z :=
  if (40 <=? postedCount) && (postedCount <? 45) then 30000
  else if 45 <=? postedCount then 33000
  else RATE_LIMIT.BASE_DELAY.

(** Lines 309 and 332. *)
Definition successCountOf (p : Progress) : Z :=
  lastProcessed p + 1 - Z.of_nat (length (failed p)).

(** Lines 284-295: the [try] block of one iteration. *)
Definition tryItem (postsData : list Entry) (i : Z) (post : PostData) : M unit :=
  _ <- limiter_schedule (postToBloggerWithRetry post 1) ;;
  modify (fun w => set_progress (mkProgress i (failed (progress w))) w) ;;
  modify (fun w => set_postCountSinceLastSave (postCountSinceLastSave w + 1) w) ;;
  w <- get ;;
  if (5 <=? postCountSinceLastSave w) || (i =? Z.of_nat (length postsData) - 1)
  then
    saveJsonFile (SavedProgress (progress w)) ;;
    modify (set_postCountSinceLastSave 0)
  else ret tt.

(** Lines 296-313: the [catch] block of one iteration. *)
Definition catchItem (i : Z) (post : PostData) (error : JsError) : M unit :=
  modify (fun w =>
    set_progress
      (mkProgress (lastProcessed (progress w))
                  (failed (progress w) ++ [mkFailed i (title post) (message error)]))
      w) ;;
  w <- get ;;
  saveJsonFile (SavedProgress (progress w)) ;;
  sendWhatsAppMessage (NoticeItemError i (title post) (message error)) ;;
  if Str.includes "Rate limit exceeded" (message error)
  then
    let successCount := successCountOf (progress w) in
    generateReport successCount (failed (progress w))
                   ("Terminated due to rate limit: " +:+ message error) ;;
    process_exit 1
  else ret tt.

(** Lines 280-327: the body of the [for] loop at index [i]. *)
Definition loopBody (postsData : list Entry) (i : Z) : M unit :=
  match at_index postsData i with
  | None => throw typeError_post_undefined
  | Some Untitled => throw typeError_title_undefined
  | Some NonStringTitle => throw typeError_not_a_function
  | Some (Post post) =>
      emit (EItem i) ;;
      try_catch (tryItem postsData i post) (catchItem i post) ;;
      w <- get ;;
      let delay := pacingDelay (JsSet.size (postedIds w)) in
      if i <? Z.of_nat (length postsData) - 1
      then sleep delay
      else ret tt
  end.

(** Lines 279-328: the [for] loop, entered at index [i]. *)
Equations? forLoop (postsData : list Entry) (i : Z) : M unit
  by wf (Z.to_nat (Z.of_nat (length postsData) - i)) lt :=
forLoop postsData i :=
  match decide (i < Z.of_nat (length postsData)) with
  | left _ => loopBody postsData i ;; forLoop postsData (i + 1)
  | right _ => ret tt
  end.
Proof. lia. Qed.

(** Lines 330-345: what follows the loop. *)
Definition finalize : M unit :=
  w <- get ;;
  let successCount := successCountOf (progress w) in
  (if (0 <? length (failed (progress w)))%nat
   then saveJsonFile (SavedFailedPosts (failed (progress w)))
   else ret tt) ;;
  generateReport successCount (failed (progress w)) "Completed normally" ;;
  sendWhatsAppMessage
    (NoticeFinished successCount (Z.of_nat (length (failed (progress w))))) ;;
  process_exit 0.

(** [postToBlogger] (lines 252-346).  The environment is taken to
    hold the required variables, so [validateEnvVars] passes. *)
Definition postToBlogger : M unit :=
  postsData <- loadJsonFile posts_json [] ;;
  progress0 <- loadJsonFile progress_json (mkProgress (-1) []) ;;
  modify (set_progress progress0) ;;
  ids <- loadPostedIds ;;
  modify (set_postedIds ids) ;;
  titles <- fetchExistingTitles ;;
  modify (set_existingTitles titles) ;;
  sendWhatsAppMessage (NoticeStart (Z.of_nat (length postsData)) (JsSet.size ids)) ;;
  modify (set_postCountSinceLastSave 0) ;;
  forLoop postsData (lastProcessed progress0 + 1) ;;
  finalize.

(** Lines 349-355: the handler of a rejected [postToBlogger()]. *)
Definition fatalHandler (err : JsError) : M unit :=
  progress <- loadJsonFile progress_json (mkProgress (-1) []) ;;
  let successCount := successCountOf progress in
  generateReport successCount (failed progress)
    ("Fatal error: " +:+ message err +:+ " (code: " +:+ code_to_string (code err) +:+ ")") ;;
  process_exit 1.

(** The script: [postToBlogger().catch(...)]. *)
Definition script : M unit := try_catch postToBlogger fatalHandler.

End Job.

(** The process starts with empty in-memory state on a given disk. *)
Definition boot (d : Disk) : World :=
  mkWorld [] [] (mkProgress (-1) []) 0 d [].

(** The exit code of a finished run. *)
Definition exitCode {A} (r : Res A * World) : option Z :=
  match fst r with Exit c => Some c | _ => None end.

(** ** The earlier revision of the script (lines 356-579)

    [post.js] also keeps an earlier revision of the job.  It has no
    title cache, no report and no rate-limit abort; it filters duplicates
    in the driver and retries only on two message patterns.  It is
    modelled over the same world and monad. *)

Module Earlier.

Section Job.

Variable blogger_insert : nat -> RequestBody -> InsertResult.
Variable blogger_listed : list string.

(** [loadPostedIds] (lines 412-419): any failure gives the empty set. *)
Definition loadPostedIds : M JsSet.t :=
  w <- get ;; ret (JsSet.of_array (default [] (posted_ids_json (disk w)))).

(** [savePostedIds] (lines 421-423) *)
Definition savePostedIds (postedIds : JsSet.t) : M unit :=
  saveJsonFile (SavedPostedIds postedIds).

(** [fetchExistingTitles] (lines 425-449): the listing, never cached. *)
Definition fetchExistingTitles : M JsSet.t :=
  ret (JsSet.of_array blogger_listed).

(** Line 470: the messages that are retried. *)
Definition retryable (msg : string) : bool :=
  Str.includes "ECONNRESET" msg || Str.includes "quotaExceeded" msg.

(** Line 471: the [wait] of a retry. *)
Definition wait (msg : string) : Z :=
  if Str.includes "quotaExceeded" msg
  then RATE_LIMIT.QUOTA_DELAY
  else RATE_LIMIT.BASE_DELAY * 2.

(** Lines 453-467: the body of the [try] block. *)
Definition tryPublish (postData : PostData) : M Outcome :=
  w <- get ;;
  if JsSet.has (postedIds w) (title postData)
  then ret Skipped
  else
    data <- blogger_posts_insert blogger_insert
              (mkBody (title postData) (content postData)
                      (default [] (labels postData))) ;;
    modify (fun w => set_postedIds (JsSet.add (postedIds w) (title postData)) w) ;;
    w <- get ;;
    savePostedIds (postedIds w) ;;
    ret (Success data).

(** [postToBloggerWithRetry] (lines 451-478) *)
Equations? postToBloggerWithRetry (postData : PostData) (attempt : Z) : M Outcome
  by wf (Z.to_nat (RATE_LIMIT.MAX_RETRIES - attempt)) lt :=
postToBloggerWithRetry postData attempt :=
  try_catch (tryPublish postData)
    (fun error =>
       let msg := message error in
       match decide (retryable msg = true /\ attempt < RATE_LIMIT.MAX_RETRIES) with
       | left _ =>
           sleep (wait msg) ;;
           postToBloggerWithRetry postData (attempt + 1)
       | right _ => throw error
       end).
Proof. unfold RATE_LIMIT.MAX_RETRIES in *. lia. Qed.

(** Lines 516-534: the [try] block of one iteration; it returns [true]
    when it ends with [continue]. *)
Definition tryItem (postsData : list Entry) (i : Z) (post : PostData) : M bool :=
  w <- get ;;
  if JsSet.has (existingTitles w) (title post) || JsSet.has (postedIds w) (title post)
  then
    modify (fun w => set_postedIds (JsSet.add (postedIds w) (title post)) w) ;;
    w <- get ;;
    savePostedIds (postedIds w) ;;
    ret true
  else
    _ <- postToBloggerWithRetry post 1 ;;
    modify (fun w => set_progress (mkProgress i (failed (progress w))) w) ;;
    modify (fun w => set_postCountSinceLastSave (postCountSinceLastSave w + 1) w) ;;
    w <- get ;;
    (if (5 <=? postCountSinceLastSave w) || (i =? Z.of_nat (length postsData) - 1)
     then
       saveJsonFile (SavedProgress (progress w)) ;;
       modify (set_postCountSinceLastSave 0)
     else ret tt) ;;
    ret false.

(** Lines 535-546: the [catch] block of one iteration. *)
Definition catchItem (i : Z) (post : PostData) (error : JsError) : M bool :=
  modify (fun w =>
    set_progress
      (mkProgress (lastProcessed (progress w))
                  (failed (progress w) ++ [mkFailed i (title post) (message error)]))
      w) ;;
  w <- get ;;
  saveJsonFile (SavedProgress (progress w)) ;;
  sendWhatsAppMessage (NoticeItemError i (title post) (message error)) ;;
  ret false.

(** Lines 512-559: the body of the [for] loop at index [i]. *)
Definition loopBody (postsData : list Entry) (i : Z) : M unit :=
  match at_index postsData i with
  | None => throw typeError_post_undefined
  | Some Untitled => throw typeError_title_undefined
  | Some NonStringTitle => throw typeError_not_a_function
  | Some (Post post) =>
      emit (EItem i) ;;
      continued <- try_catch (tryItem postsData i post) (catchItem i post) ;;
      if continued : bool
      then ret tt
      else
        w <- get ;;
        let delay := pacingDelay (JsSet.size (postedIds w)) in
        if i <? Z.of_nat (length postsData) - 1
        then sleep delay
        else ret tt
  end.

(** Lines 511-560: the [for] loop, entered at index [i]. *)
Equations? forLoop (postsData : list Entry) (i : Z) : M unit
  by wf (Z.to_nat (Z.of_nat (length postsData) - i)) lt :=
forLoop postsData i :=
  match decide (i < Z.of_nat (length postsData)) with
  | left _ => loopBody postsData i ;; forLoop postsData (i + 1)
  | right _ => ret tt
  end.
Proof. lia. Qed.

(** Lines 562-576: what follows the loop. *)
Definition finalize : M unit :=
  w <- get ;;
  let successCount := successCountOf (progress w) in
  (if (0 <? length (failed (progress w)))%nat
   then saveJsonFile (SavedFailedPosts (failed (progress w)))
   else ret tt) ;;
  sendWhatsAppMessage
    (NoticeFinished successCount (Z.of_nat (length (failed (progress w))))) ;;
  process_exit 0.

(** [postToBlogger] (lines 480-577); the script is the bare call of
    line 579, so an error it throws is not handled.  A [posts.json] that
    cannot be read ends the process with code 1. *)
Definition postToBlogger : M unit :=
  w <- get ;;
  match posts_json (disk w) with
  | None => process_exit 1
  | Some postsData =>
      progress0 <- loadJsonFile progress_json (mkProgress (-1) []) ;;
      modify (set_progress progress0) ;;
      ids <- loadPostedIds ;;
      modify (set_postedIds ids) ;;
      sendWhatsAppMessage (NoticeStart (Z.of_nat (length postsData)) (JsSet.size ids)) ;;
      titles <- fetchExistingTitles ;;
      modify (set_existingTitles titles) ;;
      modify (set_postCountSinceLastSave 0) ;;
      forLoop postsData (lastProcessed progress0 + 1) ;;
      finalize
  end.

End Job.

End Earlier.
(** * Auxiliary definitions used to state the properties *)

(** The request a post is published with. *)
Definition bodyOf (postData : PostData) : RequestBody :=
  mkBody (title postData) (content postData) (default [] (labels postData)).

(** The title is in neither set. *)
Definition unknown (postData : PostData) (w : World) : Prop :=
  JsSet.has (postedIds w) (title postData) ||
  JsSet.has (existingTitles w) (title postData) = false.

(** The world after a successful insert of [postData]. *)
Definition published (postData : PostData) (w : World) : World :=
  let ids := JsSet.add (postedIds w) (title postData) in
  let titles := JsSet.add (existingTitles w) (title postData) in
  mkWorld ids titles (progress w) (postCountSinceLastSave w)
    (write_file (SavedExistingTitles titles)
       (write_file (SavedPostedIds ids) (disk w)))
    (trace w ++ [EInsert (bodyOf postData);
                 ESave (SavedPostedIds ids);
                 ESave (SavedExistingTitles titles)]).

(** The world after an insert call that the service rejects. *)
Definition rejected (postData : PostData) (w : World) : World :=
  set_trace (trace w ++ [EInsert (bodyOf postData)]) w.

(** The events the retry executor can produce. *)
Definition retryEvent (e : Event) : bool :=
  match e with
  | EInsert _ | ESleep _ => true
  | ESave (SavedPostedIds _) | ESave (SavedExistingTitles _) => true
  | _ => false
  end.

(** What a call of the retry executor leaves alone, and what it may add:
    [w'] is [w] after a call that appended the events [evs]. *)
Record retry_frame (w w' : World) (evs : list Event) : Prop := {
  rf_trace : trace w' = trace w ++ evs;
  rf_events : forallb retryEvent evs = true;
  rf_progress : progress w' = progress w;
  rf_count : postCountSinceLastSave w' = postCountSinceLastSave w;
  rf_posts : posts_json (disk w') = posts_json (disk w);
  rf_progress_json : progress_json (disk w') = progress_json (disk w);
  rf_failed_json : failed_posts_json (disk w') = failed_posts_json (disk w);
  rf_reports : reports (disk w') = reports (disk w)
}.

(** The failure classes as the specification words them (section 4.3,
    step 4), to be compared with [isRateLimitError] and [wait]. *)
Module Spec.

(** A structured reason that speaks of a quota. *)
Definition quotaReason (reason : string) : bool :=
  Str.includes "quota" reason || Str.includes "Quota" reason ||
  Str.includes "dailyLimit" reason.

(** "HTTP 403 with quota-related reason, or message pattern
    quotaExceeded / Daily Limit Exceeded" *)
Definition quotaFailure (error : JsError) : bool :=
  (code_is error 403 && existsb quotaReason (errors error)) ||
  Str.includes "quotaExceeded" (message error) ||
  Str.includes "Daily Limit Exceeded" (message error).

(** "HTTP 429, or message pattern User Rate Limit Exceeded / too many
    requests, or structured reason rateLimitExceeded /
    userRateLimitExceeded" *)
Definition rateLimitFailure (error : JsError) : bool :=
  code_is error 429 ||
  Str.includes "User Rate Limit Exceeded" (message error) ||
  Str.includes "too many requests" (message error) ||
  existsb (fun reason => String.eqb reason "rateLimitExceeded" ||
                         String.eqb reason "userRateLimitExceeded")
          (errors error).

(** "quota failure: fixed long cooldown; HTTP-429-specific: fixed
    short cooldown; otherwise exponential backoff" *)
Definition wait (error : JsError) (attempt : Z) : Z :=
  if quotaFailure error then 3600000
  else if code_is error 429 then 60000
  else 10000 * 2 ^ (attempt - 1).

End Spec.

(** A working directory without any file. *)
Definition emptyDisk : Disk := mkDisk None None None None None [].

(** The world after the log line of item [i] (line 281). *)
Definition entered (i : Z) (w : World) : World :=
  set_trace (trace w ++ [EItem i]) w.

(** The world after lines 289-295: the attempt at index [i] returned. *)
Definition advanced (postsData : list Entry) (i : Z) (w : World) : World :=
  let p := mkProgress i (failed (progress w)) in
  let c := postCountSinceLastSave w + 1 in
  if (5 <=? c) || (i =? Z.of_nat (length postsData) - 1)
  then mkWorld (postedIds w) (existingTitles w) p 0
         (write_file (SavedProgress p) (disk w))
         (trace w ++ [ESave (SavedProgress p)])
  else mkWorld (postedIds w) (existingTitles w) p c (disk w) (trace w).

(** The world after lines 297-304: the attempt at index [i] threw. *)
Definition recorded (i : Z) (post : PostData) (e : JsError) (w : World) : World :=
  let p := mkProgress (lastProcessed (progress w))
             (failed (progress w) ++ [mkFailed i (title post) (message e)]) in
  mkWorld (postedIds w) (existingTitles w) p (postCountSinceLastSave w)
    (write_file (SavedProgress p) (disk w))
    (trace w ++ [ESave (SavedProgress p);
                 ENotify (NoticeItemError i (title post) (message e))]).

(** The report [generateReport] builds in world [w]. *)
Definition reportOf (successCount : Z) (failedPosts : list FailedEntry)
    (terminationReason : string) (w : World) : Report :=
  mkReport (if String.eqb terminationReason "" then "Completed normally"
            else terminationReason)
           (successCount + Z.of_nat (length failedPosts))
           successCount failedPosts
           (length (JsSet.of_array (default [] (posted_ids_json (disk w)))))
           (length (default [] (existing_titles_json (disk w)))).

(** The world after [generateReport]. *)
Definition reported (successCount : Z) (failedPosts : list FailedEntry)
    (terminationReason : string) (w : World) : World :=
  let r := reportOf successCount failedPosts terminationReason w in
  mkWorld (postedIds w) (existingTitles w) (progress w) (postCountSinceLastSave w)
    (write_file (SavedReport r) (disk w))
    (trace w ++ [ESave (SavedReport r); ENotify (NoticeReport r)]).

(** The world after lines 316-323: the pacing wait, if any. *)
Definition paced (postsData : list Entry) (i : Z) (w : World) : World :=
  if i <? Z.of_nat (length postsData) - 1
  then set_trace (trace w ++ [ESleep (pacingDelay (JsSet.size (postedIds w)))]) w
  else w.

(** The world in which a rate-limit abort leaves the process. *)
Definition aborted (i : Z) (post : PostData) (e : JsError) (w : World) : World :=
  let w1 := recorded i post e w in
  reported (successCountOf (progress w1)) (failed (progress w1))
           ("Terminated due to rate limit: " +:+ message e) w1.

(** The world after lines 330-345. *)
Definition finalized (w : World) : World :=
  let successCount := successCountOf (progress w) in
  let w1 :=
    if (0 <? length (failed (progress w)))%nat
    then mkWorld (postedIds w) (existingTitles w) (progress w) (postCountSinceLastSave w)
           (write_file (SavedFailedPosts (failed (progress w))) (disk w))
           (trace w ++ [ESave (SavedFailedPosts (failed (progress w)))])
    else w in
  let w2 := reported successCount (failed (progress w)) "Completed normally" w1 in
  set_trace
    (trace w2 ++
     [ENotify (NoticeFinished successCount (Z.of_nat (length (failed (progress w)))))])
    w2.

(** The termination reason the fatal handler reports. *)
Definition fatalReason (err : JsError) : string :=
  "Fatal error: " +:+ message err +:+ " (code: " +:+ code_to_string (code err) +:+ ")".

(** The world after the fatal handler (lines 350-354). *)
Definition crashed (err : JsError) (w : World) : World :=
  let progress := default (mkProgress (-1) []) (progress_json (disk w)) in
  reported (successCountOf progress) (failed progress) (fatalReason err) w.

(** The titles [fetchExistingTitles] returns on disk [d]. *)
Definition fetchedTitles (blogger_listed : list string) (d : Disk) : JsSet.t :=
  if (0 <? length (default [] (existing_titles_json d)))%nat
  then JsSet.of_array (default [] (existing_titles_json d))
  else JsSet.of_array blogger_listed.

(** The world in which the loop is entered (after lines 254-277). *)
Definition started (blogger_listed : list string) (d : Disk) : World :=
  let postsData := default [] (posts_json d) in
  let progress0 := default (mkProgress (-1) []) (progress_json d) in
  let ids := JsSet.of_array (default [] (posted_ids_json d)) in
  let titles := fetchedTitles blogger_listed d in
  let notice := ENotify (NoticeStart (Z.of_nat (length postsData)) (JsSet.size ids)) in
  if (0 <? length (default [] (existing_titles_json d)))%nat
  then mkWorld ids titles progress0 0 d [notice]
  else mkWorld ids titles progress0 0
         (write_file (SavedExistingTitles titles) d)
         [ESave (SavedExistingTitles titles); notice].

(** Indices of the items a trace enters, in order. *)
Fixpoint itemsOf (evs : list Event) : list Z :=
  match evs with
  | [] => []
  | EItem i :: evs' => i :: itemsOf evs'
  | _ :: evs' => itemsOf evs'
  end.

(** The cursor values a trace persists to [progress.json], in order. *)
Fixpoint savedCursors (evs : list Event) : list Z :=
  match evs with
  | [] => []
  | ESave (SavedProgress p) :: evs' => lastProcessed p :: savedCursors evs'
  | _ :: evs' => savedCursors evs'
  end.

(** The waits of a trace, in order. *)
Fixpoint sleepsOf (evs : list Event) : list Z :=
  match evs with
  | [] => []
  | ESleep ms :: evs' => ms :: sleepsOf evs'
  | _ :: evs' => sleepsOf evs'
  end.

(** What one iteration of the loop at index [i] does, started in [w]:
    the result, the world it leaves and the events it appends. *)
Inductive iter_run (postsData : list Entry) (i : Z) (w : World) :
    Res unit -> World -> list Event -> Prop :=
| iter_threw (e : JsError) :
    (* line 280-281 threw: nothing happened *)
    iter_run postsData i w (Throw e) w []
| iter_returned (w' : World) (evs : list Event) :
    (* the attempt returned: the cursor moves to [i] *)
    trace w' = trace w ++ evs ->
    itemsOf evs = [i] ->
    lastProcessed (progress w') = i ->
    failed (progress w') = failed (progress w) ->
    savedCursors evs = [] \/ savedCursors evs = [i] ->
    (i = Z.of_nat (length postsData) - 1 -> progress_json (disk w') = Some (progress w')) ->
    posts_json (disk w') = posts_json (disk w) ->
    iter_run postsData i w (Ret tt) w' evs
| iter_caught (r : Res unit) (w' : World) (evs : list Event) (t msg : string) :
    (* the attempt threw: the cursor stays, the failure is recorded *)
    r = Ret tt \/ r = Exit 1 ->
    trace w' = trace w ++ evs ->
    itemsOf evs = [i] ->
    lastProcessed (progress w') = lastProcessed (progress w) ->
    failed (progress w') = failed (progress w) ++ [mkFailed i t msg] ->
    savedCursors evs = [lastProcessed (progress w)] ->
    progress_json (disk w') = Some (progress w') ->
    posts_json (disk w') = posts_json (disk w) ->
    iter_run postsData i w r w' evs.

(** What the loop entered at index [i] in world [w] does: the result
    [r], the world [w'] it leaves and the events [evs] it appends. *)
Record loop_run (postsData : list Entry) (i : Z) (w : World)
    (r : Res unit) (w' : World) (evs : list Event) : Prop := {
  lr_trace : trace w' = trace w ++ evs;
  lr_result : r = Ret tt \/ (exists e, r = Throw e) \/ r = Exit 1;
  lr_done : Z.of_nat (length postsData) <= i -> r = Ret tt /\ w' = w;
  lr_items : itemsOf evs `prefix_of` seqZ i (Z.of_nat (length postsData) - i);
  lr_items_all : r = Ret tt -> itemsOf evs = seqZ i (Z.of_nat (length postsData) - i);
  lr_cursor : lastProcessed (progress w) <= lastProcessed (progress w');
  lr_cursor_item :
    lastProcessed (progress w') = lastProcessed (progress w) \/
    lastProcessed (progress w') ∈ itemsOf evs;
  lr_saved_sorted : StronglySorted Z.le (savedCursors evs);
  lr_saved_range :
    Forall (fun c => lastProcessed (progress w) <= c <= lastProcessed (progress w'))
           (savedCursors evs);
  lr_failed_after :
    forall j, j ∈ itemsOf evs -> lastProcessed (progress w') < j ->
              j ∈ index <$> failed (progress w');
  lr_failed_grows : failed (progress w) `prefix_of` failed (progress w');
  lr_persisted :
    r = Ret tt -> i < Z.of_nat (length postsData) ->
    progress_json (disk w') = Some (progress w');
  lr_posts : posts_json (disk w') = posts_json (disk w)
}.

(** Sample data for the worked scenarios. *)
Definition samplePost (t : string) : PostData := mkPost t "<p>text</p>" None.

Definition sampleData : InsertData := mkData "https://blog.example/p" "1".

(** A service that accepts every post. *)
Definition alwaysInserted : nat -> RequestBody -> InsertResult :=
  fun _ _ => Inserted sampleData.

(** A service that rejects every post with [error]. *)
Definition alwaysRejected (error : JsError) : nat -> RequestBody -> InsertResult :=
  fun _ _ => Rejected error.

(** A service that rejects the call that follows [n] earlier calls with
    [error] and accepts every other call. *)
Definition rejectedAt (n : nat) (error : JsError) : nat -> RequestBody -> InsertResult :=
  fun k _ => if Nat.eqb k n then Rejected error else Inserted sampleData.

(** A working directory that holds only [posts.json]. *)
Definition freshDisk (postsData : list Entry) : Disk :=
  mkDisk (Some postsData) None None None None [].

(** * Auxiliary definitions for the further properties *)

(** The world after rejected attempts for [postData], each followed by
    its wait; [ms] lists the waits. *)
Definition retried (postData : PostData) (ms : list Z) (w : World) : World :=
  set_trace
    (trace w ++ flat_map (fun m => [EInsert (bodyOf postData); ESleep m]) ms) w.

(** The two title sets and the two files that mirror them. *)
Definition stores (w : World) :
    JsSet.t * JsSet.t * option (list string) * option (list string) :=
  (postedIds w, existingTitles w,
   posted_ids_json (disk w), existing_titles_json (disk w)).

(** The files hold exactly the titles of the sets in memory, and the
    sets list no title twice. *)
Definition mirrored
    (s : JsSet.t * JsSet.t * option (list string) * option (list string)) : Prop :=
  let '(ids, titles, ids_file, titles_file) := s in
  NoDup ids /\ NoDup titles /\
  (forall t, t ∈ ids <-> t ∈ default [] ids_file) /\
  (forall t, t ∈ titles <-> t ∈ default [] titles_file).

(** Number of items a trace enters after its last save of
    [progress.json], counting from [n]. *)
Fixpoint unsavedFrom (n : nat) (evs : list Event) : nat :=
  match evs with
  | [] => n
  | EItem _ :: evs' => unsavedFrom (S n) evs'
  | ESave (SavedProgress _) :: evs' => unsavedFrom 0 evs'
  | _ :: evs' => unsavedFrom n evs'
  end.

Definition unsavedItems (evs : list Event) : nat := unsavedFrom 0 evs.

(** What the driver keeps true between iterations about the progress
    object, its file and the save counter. *)
Record durable (w : World) : Prop := {
  du_count : 0 <= postCountSinceLastSave w <= 4;
  du_unsaved : Z.of_nat (unsavedItems (trace w)) <= postCountSinceLastSave w;
  du_failed :
    failed (default (mkProgress (-1) []) (progress_json (disk w))) = failed (progress w);
  du_cursor :
    lastProcessed (default (mkProgress (-1) []) (progress_json (disk w))) <=
    lastProcessed (progress w);
  du_synced :
    postCountSinceLastSave w = 0 ->
    default (mkProgress (-1) []) (progress_json (disk w)) = progress w
}.

(** What publishing one element of [posts.json] does to the pair of
    sets when the service accepts it: a title in either set is skipped,
    a new title joins both. *)
Definition publishNew (s : JsSet.t * JsSet.t) (entry : Entry) : JsSet.t * JsSet.t :=
  match entry with
  | Post p =>
      if JsSet.has (fst s) (title p) || JsSet.has (snd s) (title p)
      then s
      else (JsSet.add (fst s) (title p), JsSet.add (snd s) (title p))
  | _ => s
  end.

(** The element of [posts.json] at index [i] is a post with a title. *)
Definition wellFormedAt (postsData : list Entry) (i : Z) : Prop :=
  exists post, at_index postsData i = Some (Post post).

(** The world after a successful insert of [postData] by the earlier
    revision (lines 457-467): only [postedIds] and its file change. *)
Definition published_earlier (postData : PostData) (w : World) : World :=
  let ids := JsSet.add (postedIds w) (title postData) in
  mkWorld ids (existingTitles w) (progress w) (postCountSinceLastSave w)
    (write_file (SavedPostedIds ids) (disk w))
    (trace w ++ [EInsert (bodyOf postData); ESave (SavedPostedIds ids)]).

(** The world after the duplicate branch of the earlier revision
    (lines 516-521) at index [i]. *)
Definition deduplicated (i : Z) (post : PostData) (w : World) : World :=
  let ids := JsSet.add (postedIds w) (title post) in
  mkWorld ids (existingTitles w) (progress w) (postCountSinceLastSave w)
    (write_file (SavedPostedIds ids) (disk w))
    (trace w ++ [EItem i; ESave (SavedPostedIds ids)]).

(** * Properties *)

(** ** The definitions on small inputs *)

Example includes_inside :
  Str.includes "quotaExceeded" "The request failed: quotaExceeded." = true.
Proof. reflexivity. Qed.

Example includes_case_sensitive :
  Str.includes "Rate limit exceeded" "Rate Limit Exceeded" = false.
Proof. reflexivity. Qed.

Example of_Z_403 : Str.of_Z 403 = "403".
Proof. reflexivity. Qed.

Example add_twice : JsSet.add (JsSet.add ["a"] "b") "a" = ["a"; "b"].
Proof. reflexivity. Qed.

Example of_array_dedup : JsSet.of_array ["a"; "b"; "a"] = ["a"; "b"].
Proof. reflexivity. Qed.

Example classify_403 : isRateLimitError (mkError "Forbidden" (CodeNum 403) []) = true.
Proof. reflexivity. Qed.

Example classify_reason :
  isRateLimitError (mkError "Bad Request" (CodeNum 400) ["userRateLimitExceeded"]) = true.
Proof. reflexivity. Qed.

Example classify_reset :
  isRateLimitError (mkError "read ECONNRESET" (CodeStr "ECONNRESET") []) = false.
Proof. reflexivity. Qed.

Example wait_quota : wait (mkError "quotaExceeded" CodeUndefined []) 2 = 3600000.
Proof. reflexivity. Qed.

Example wait_429 : wait (mkError "Too Many Requests" (CodeNum 429) []) 2 = 60000.
Proof. reflexivity. Qed.

Example wait_backoff : wait (mkError "too many requests" CodeUndefined []) 4 = 80000.
Proof. reflexivity. Qed.

(** One new post on an empty working directory: one insert call,
    [posted_ids.json] becomes [["X"]], exit code 0. *)
Example one_new_post :
  let run := script alwaysInserted [] (boot (freshDisk [Post (samplePost "X")])) in
  exitCode run = Some 0 /\
  insertCalls (trace (snd run)) = 1%nat /\
  posted_ids_json (disk (snd run)) = Some ["X"] /\
  progress_json (disk (snd run)) = Some (mkProgress 0 []).
Proof. vm_compute. repeat split; reflexivity. Qed.

(** ** Strings and sets *)


Lemma includes_marker (s : string) :
  Str.includes "Rate limit exceeded" ("Rate limit exceeded after " +:+ s) = true.
Proof. reflexivity. Qed.

Lemma includes_reason (s : string) :
  Str.includes "rate limit" ("Terminated due to rate limit: " +:+ s) = true.
Proof. reflexivity. Qed.

Module JsSetFacts.

Lemma has_true (s : JsSet.t) (x : string) : JsSet.has s x = true <-> x ∈ s.
Proof. unfold JsSet.has. apply bool_decide_eq_true. Qed.

Lemma has_false (s : JsSet.t) (x : string) : JsSet.has s x = false <-> x ∉ s.
Proof. unfold JsSet.has. apply bool_decide_eq_false. Qed.

Lemma elem_of_add (s : JsSet.t) (x y : string) :
  y ∈ JsSet.add s x <-> y = x \/ y ∈ s.
Proof.
  unfold JsSet.add. destruct (JsSet.has s x) eqn:E.
  - apply has_true in E. split; [auto|]. intros [->|]; auto.
  - rewrite elem_of_app, list_elem_of_singleton. tauto.
Qed.

Lemma elem_of_fold_add (l : list string) (acc : JsSet.t) (y : string) :
  y ∈ fold_left JsSet.add l acc <-> y ∈ acc \/ y ∈ l.
Proof.
  revert acc. induction l as [|x l IH]; intros acc; simpl.
  - rewrite elem_of_nil. tauto.
  - rewrite IH, elem_of_add, elem_of_cons. tauto.
Qed.

Lemma elem_of_of_array (l : list string) (y : string) :
  y ∈ JsSet.of_array l <-> y ∈ l.
Proof.
  unfold JsSet.of_array. rewrite elem_of_fold_add, elem_of_nil. tauto.
Qed.

End JsSetFacts.

(** ** The retry executor *)

Section RetryFacts.

Variable blogger_insert : nat -> RequestBody -> InsertResult.

Lemma tryPublish_known postData w :
  JsSet.has (postedIds w) (title postData) ||
  JsSet.has (existingTitles w) (title postData) = true ->
  tryPublish blogger_insert postData w = (Ret Skipped, w).
Proof.
  intros H. unfold tryPublish, bind, get, ret. rewrite H. reflexivity.
Qed.

Lemma tryPublish_inserted postData w d :
  unknown postData w ->
  blogger_insert (insertCalls (trace w)) (bodyOf postData) = Inserted d ->
  tryPublish blogger_insert postData w = (Ret (Success d), published postData w).
Proof.
  intros H Hi. unfold unknown in H.
  unfold tryPublish, blogger_posts_insert, bind, get. rewrite H. cbn.
  fold (bodyOf postData). rewrite Hi. cbn.
  unfold published. cbn. rewrite <- !app_assoc. reflexivity.
Qed.

Lemma tryPublish_rejected postData w e :
  unknown postData w ->
  blogger_insert (insertCalls (trace w)) (bodyOf postData) = Rejected e ->
  tryPublish blogger_insert postData w = (Throw e, rejected postData w).
Proof.
  intros H Hi. unfold unknown in H.
  unfold tryPublish, blogger_posts_insert, bind, get. rewrite H. cbn.
  fold (bodyOf postData). rewrite Hi. reflexivity.
Qed.

(** One unfolding of the executor in each of its cases. *)
Lemma retry_known postData attempt w :
  JsSet.has (postedIds w) (title postData) ||
  JsSet.has (existingTitles w) (title postData) = true ->
  postToBloggerWithRetry blogger_insert postData attempt w = (Ret Skipped, w).
Proof.
  intros H. rewrite postToBloggerWithRetry_equation_1.
  unfold try_catch. rewrite tryPublish_known by assumption. reflexivity.
Qed.

Lemma retry_inserted postData attempt w d :
  unknown postData w ->
  blogger_insert (insertCalls (trace w)) (bodyOf postData) = Inserted d ->
  postToBloggerWithRetry blogger_insert postData attempt w = (Ret (Success d), published postData w).
Proof.
  intros H Hi. rewrite postToBloggerWithRetry_equation_1.
  unfold try_catch. rewrite (tryPublish_inserted _ _ d) by assumption. reflexivity.
Qed.

Lemma retry_again postData attempt w e :
  unknown postData w ->
  blogger_insert (insertCalls (trace w)) (bodyOf postData) = Rejected e ->
  isRateLimitError e = true ->
  attempt < RATE_LIMIT.MAX_RETRIES ->
  postToBloggerWithRetry blogger_insert postData attempt w =
  postToBloggerWithRetry blogger_insert postData (attempt + 1)
    (set_trace (trace w ++ [EInsert (bodyOf postData); ESleep (wait e attempt)]) w).
Proof.
  intros H Hi Hr Ha. rewrite (postToBloggerWithRetry_equation_1 blogger_insert postData attempt).
  unfold try_catch. rewrite (tryPublish_rejected _ _ e) by assumption.
  destruct (decide _) as [_|n]; [|tauto].
  unfold bind, sleep, emit, modify, rejected. cbn. rewrite <- app_assoc. reflexivity.
Qed.

Lemma retry_exhausted postData attempt w e :
  unknown postData w ->
  blogger_insert (insertCalls (trace w)) (bodyOf postData) = Rejected e ->
  isRateLimitError e = true ->
  RATE_LIMIT.MAX_RETRIES <= attempt ->
  postToBloggerWithRetry blogger_insert postData attempt w =
  (Throw (rateLimitExhausted e attempt), rejected postData w).
Proof.
  intros H Hi Hr Ha. rewrite postToBloggerWithRetry_equation_1.
  unfold try_catch. rewrite (tryPublish_rejected _ _ e) by assumption.
  destruct (decide _) as [[_ ?]|_]; [lia|].
  rewrite Hr. reflexivity.
Qed.

Lemma retry_fatal postData attempt w e :
  unknown postData w ->
  blogger_insert (insertCalls (trace w)) (bodyOf postData) = Rejected e ->
  isRateLimitError e = false ->
  postToBloggerWithRetry blogger_insert postData attempt w = (Throw e, rejected postData w).
Proof.
  intros H Hi Hr. rewrite postToBloggerWithRetry_equation_1.
  unfold try_catch. rewrite (tryPublish_rejected _ _ e) by assumption.
  destruct (decide _) as [[? _]|_]; [congruence|].
  rewrite Hr. reflexivity.
Qed.

End RetryFacts.

Section RetryBound.

Variable blogger_insert : nat -> RequestBody -> InsertResult.

Lemma retry_frame_refl w : retry_frame w w [].
Proof. split; try reflexivity. symmetry. apply app_nil_r. Qed.

Lemma retry_frame_published postData w :
  retry_frame w (published postData w)
    [EInsert (bodyOf postData);
     ESave (SavedPostedIds (JsSet.add (postedIds w) (title postData)));
     ESave (SavedExistingTitles (JsSet.add (existingTitles w) (title postData)))].
Proof. split; reflexivity. Qed.

Lemma retry_frame_rejected postData w :
  retry_frame w (rejected postData w) [EInsert (bodyOf postData)].
Proof. split; reflexivity. Qed.

Lemma insertCalls_app (l1 l2 : list Event) :
  insertCalls (l1 ++ l2) = (insertCalls l1 + insertCalls l2)%nat.
Proof. unfold insertCalls. rewrite List.filter_app, length_app. reflexivity. Qed.

(** The executor started at [attempt] ends by returning or throwing,
    after at most [MAX_RETRIES + 1 - attempt] insert calls (one call
    when [attempt] is already past the budget). *)
Lemma retry_total postData (n : nat) :
  forall attempt w,
    Z.to_nat (RATE_LIMIT.MAX_RETRIES - attempt) = n ->
    exists evs,
      retry_frame w (snd (postToBloggerWithRetry blogger_insert postData attempt w)) evs /\
      (insertCalls evs <= S n)%nat /\
      (forall c, fst (postToBloggerWithRetry blogger_insert postData attempt w) <> Exit c).
Proof.
  induction n as [n IH] using lt_wf_ind. intros attempt w Hn.
  destruct (JsSet.has (postedIds w) (title postData) ||
            JsSet.has (existingTitles w) (title postData)) eqn:Hk.
  { rewrite retry_known by assumption. exists []. cbn.
    split; [apply retry_frame_refl|]. split; [lia|discriminate]. }
  destruct (blogger_insert (insertCalls (trace w)) (bodyOf postData)) as [d|e] eqn:Hi.
  { rewrite (retry_inserted _ _ _ _ d) by assumption. eexists. cbn.
    split; [apply retry_frame_published|]. split; [cbn; lia|discriminate]. }
  destruct (isRateLimitError e) eqn:Hr.
  2:{ rewrite (retry_fatal _ _ _ _ e) by assumption. eexists. cbn.
      split; [apply retry_frame_rejected|]. split; [cbn; lia|discriminate]. }
  destruct (Z_lt_le_dec attempt RATE_LIMIT.MAX_RETRIES) as [Ha|Ha].
  2:{ rewrite (retry_exhausted _ _ _ _ e) by assumption. eexists. cbn.
      split; [apply retry_frame_rejected|]. split; [cbn; lia|discriminate]. }
  rewrite (retry_again _ _ _ _ e) by assumption.
  set (w1 := set_trace _ w).
  assert (Hlt : (Z.to_nat (RATE_LIMIT.MAX_RETRIES - (attempt + 1)) < n)%nat)
    by (unfold RATE_LIMIT.MAX_RETRIES in *; lia).
  destruct (IH _ Hlt (attempt + 1) w1 eq_refl) as (evs & Hf & Hc & He).
  exists ([EInsert (bodyOf postData); ESleep (wait e attempt)] ++ evs).
  split; [|split; [|exact He]].
  - destruct Hf as [Ht Hev ? ? ? ? ? ?]. split; try assumption.
    rewrite Ht. unfold w1. cbn. rewrite <- app_assoc. reflexivity.
  - rewrite insertCalls_app. cbn. unfold RATE_LIMIT.MAX_RETRIES in *. lia.
Qed.

End RetryBound.

(** C3. Whatever the remote service answers and whatever the state, a
    call of [postToBloggerWithRetry] for one post, started at attempt 1,
    comes to an end (it returns or throws) and issues at most
    MAX_RETRIES = 5 calls of [blogger.posts.insert]. *)
Theorem retry_bound (blogger_insert : nat -> RequestBody -> InsertResult)
    (postData : PostData) (w : World) :
  exists (r : Res Outcome) (w' : World) (evs : list Event),
    postToBloggerWithRetry blogger_insert postData 1 w = (r, w') /\
    trace w' = trace w ++ evs /\
    (insertCalls evs <= Z.to_nat RATE_LIMIT.MAX_RETRIES)%nat.
Proof.
  destruct (retry_total blogger_insert postData _ 1 w eq_refl) as (evs & Hf & Hc & _).
  destruct (postToBloggerWithRetry blogger_insert postData 1 w) as [r w'] eqn:E.
  exists r, w', evs. split; [reflexivity|]. split; [apply Hf|].
  exact Hc.
Qed.

(** C4, as stated, fails: a rejection whose message is "Daily Limit
    Exceeded" and that carries neither code 403 nor "quotaExceeded" is a
    quota failure in the specification's classification and is retried
    by the code, but after the exponential backoff of 10000 ms, not
    after the quota cooldown of 3600000 ms. *)
Lemma retry_wait_daily_limit :
  let error := mkError "Daily Limit Exceeded" CodeUndefined [] in
  let blogger_insert := fun (n : nat) (_ : RequestBody) =>
    match n with O => Rejected error | _ => Inserted (mkData "u" "1") end in
  let postData := mkPost "X" "body" None in
  Spec.quotaFailure error = true /\
  Spec.wait error 1 = 3600000 /\
  isRateLimitError error = true /\
  wait error 1 = 10000 /\
  trace (snd (postToBloggerWithRetry blogger_insert postData 1 (boot emptyDisk))) =
    [EInsert (bodyOf postData); ESleep 10000; EInsert (bodyOf postData);
     ESave (SavedPostedIds ["X"]); ESave (SavedExistingTitles ["X"])].
Proof. vm_compute. repeat split; reflexivity. Qed.

(** C4, amended. When attempt [a < MAX_RETRIES] of a post fails with an
    error that [isRateLimitError] accepts, the executor waits and then
    continues as attempt [a + 1]; the wait is 3600000 ms when the message
    contains "quotaExceeded" or the code is 403, otherwise 60000 ms when
    the code is 429, otherwise 10000 * 2^(a-1) ms. *)
Theorem retry_wait (blogger_insert : nat -> RequestBody -> InsertResult)
    (postData : PostData) (a : Z) (w : World) (error : JsError) :
  1 <= a < RATE_LIMIT.MAX_RETRIES ->
  unknown postData w ->
  blogger_insert (insertCalls (trace w)) (bodyOf postData) = Rejected error ->
  isRateLimitError error = true ->
  postToBloggerWithRetry blogger_insert postData a w =
    postToBloggerWithRetry blogger_insert postData (a + 1)
      (set_trace (trace w ++ [EInsert (bodyOf postData); ESleep (wait error a)]) w) /\
  wait error a =
    (if Str.includes "quotaExceeded" (message error) || code_is error 403 then 3600000
     else if code_is error 429 then 60000
     else 10000 * 2 ^ (a - 1)).
Proof.
  intros Ha Hu Hi Hr. split; [|reflexivity].
  apply retry_again; [assumption..|lia].
Qed.

Lemma retry_wait_witness :
  let error := mkError "too many requests" CodeUndefined [] in
  let blogger_insert := fun (_ : nat) (_ : RequestBody) => Rejected error in
  let postData := mkPost "X" "body" None in
  let w := boot emptyDisk in
  (1 <= 3 < RATE_LIMIT.MAX_RETRIES) /\
  unknown postData w /\
  isRateLimitError error = true /\
  (postToBloggerWithRetry blogger_insert postData 3 w =
    postToBloggerWithRetry blogger_insert postData (3 + 1)
      (set_trace (trace w ++ [EInsert (bodyOf postData); ESleep (wait error 3)]) w) /\
   wait error 3 = 40000).
Proof.
  cbv zeta.
  assert (H1 : 1 <= 3 < RATE_LIMIT.MAX_RETRIES) by (unfold RATE_LIMIT.MAX_RETRIES; lia).
  assert (H2 : unknown (mkPost "X" "body" None) (boot emptyDisk)) by reflexivity.
  assert (H3 : isRateLimitError (mkError "too many requests" CodeUndefined []) = true)
    by reflexivity.
  split; [exact H1|]. split; [exact H2|]. split; [exact H3|].
  exact (retry_wait (fun _ _ => Rejected (mkError "too many requests" CodeUndefined []))
           (mkPost "X" "body" None) 3 (boot emptyDisk) _ H1 H2 eq_refl H3).
Defined.

(** C5, as stated, fails: a rejection with HTTP 403 whose reason is not
    about a quota matches neither class of the specification, yet the
    code does not let it through: it waits 3600000 ms and retries, and
    what finally reaches the caller is the exhaustion error. *)
Lemma forbidden_is_retried :
  let error := mkError "Forbidden" (CodeNum 403) ["forbidden"] in
  let blogger_insert := fun (_ : nat) (_ : RequestBody) => Rejected error in
  let postData := mkPost "X" "body" None in
  let r := postToBloggerWithRetry blogger_insert postData 1 (boot emptyDisk) in
  Spec.quotaFailure error = false /\
  Spec.rateLimitFailure error = false /\
  fst r <> Throw error /\
  insertCalls (trace (snd r)) = 5%nat /\
  firstn 3 (trace (snd r)) =
    [EInsert (bodyOf postData); ESleep 3600000; EInsert (bodyOf postData)].
Proof. vm_compute. repeat split; try reflexivity. discriminate. Qed.

(** C5, amended. A rejection that [isRateLimitError] does not accept
    (code neither 429 nor 403, none of the four message patterns, neither
    of the two structured reasons) reaches the caller at once: the very
    error is thrown after the single insert call, with no wait and no
    retry. *)
Theorem fatal_propagates (blogger_insert : nat -> RequestBody -> InsertResult)
    (postData : PostData) (attempt : Z) (w : World) (error : JsError) :
  unknown postData w ->
  blogger_insert (insertCalls (trace w)) (bodyOf postData) = Rejected error ->
  isRateLimitError error = false ->
  postToBloggerWithRetry blogger_insert postData attempt w =
    (Throw error, set_trace (trace w ++ [EInsert (bodyOf postData)]) w).
Proof. intros. apply retry_fatal; assumption. Qed.

Lemma fatal_propagates_witness :
  let error := mkError "Internal error" (CodeNum 500) ["backendError"] in
  let postData := mkPost "X" "body" None in
  let w := boot emptyDisk in
  unknown postData w /\
  isRateLimitError error = false /\
  postToBloggerWithRetry (fun _ _ => Rejected error) postData 1 w =
    (Throw error, set_trace (trace w ++ [EInsert (bodyOf postData)]) w).
Proof.
  cbv zeta.
  assert (H1 : unknown (mkPost "X" "body" None) (boot emptyDisk)) by reflexivity.
  assert (H2 : isRateLimitError (mkError "Internal error" (CodeNum 500) ["backendError"]) = false)
    by reflexivity.
  split; [exact H1|]. split; [exact H2|].
  exact (fatal_propagates
           (fun _ _ => Rejected (mkError "Internal error" (CodeNum 500) ["backendError"]))
           (mkPost "X" "body" None) 1 (boot emptyDisk) _ H1 eq_refl H2).
Defined.

(** ** The batch driver *)

Section DriverFacts.

Variable blogger_insert : nat -> RequestBody -> InsertResult.

Lemma generateReport_run successCount failedPosts reason w :
  generateReport successCount failedPosts reason w =
  (Ret tt, reported successCount failedPosts reason w).
Proof.
  unfold generateReport, loadPostedIds, loadJsonFile, saveJsonFile,
    sendWhatsAppMessage, emit, modify, bind, get, ret, reported, reportOf.
  cbn. rewrite <- app_assoc. reflexivity.
Qed.

Lemma forLoop_lt postsData i w :
  i < Z.of_nat (length postsData) ->
  forLoop blogger_insert postsData i w =
  (loopBody blogger_insert postsData i ;; forLoop blogger_insert postsData (i + 1)) w.
Proof.
  intros H. rewrite (forLoop_equation_1 blogger_insert postsData i).
  destruct (decide _); [reflexivity|lia].
Qed.

Lemma forLoop_ge postsData i w :
  Z.of_nat (length postsData) <= i ->
  forLoop blogger_insert postsData i w = (Ret tt, w).
Proof.
  intros H. rewrite (forLoop_equation_1 blogger_insert postsData i).
  destruct (decide _); [lia|reflexivity].
Qed.

(** One iteration on a well-formed post, by the outcome of the
    attempt. *)
Lemma loopBody_returned postsData i post w o w2 :
  at_index postsData i = Some (Post post) ->
  postToBloggerWithRetry blogger_insert post 1 (entered i w) = (Ret o, w2) ->
  loopBody blogger_insert postsData i w =
  (Ret tt, paced postsData i (advanced postsData i w2)).
Proof.
  intros Hp Hr. unfold loopBody. rewrite Hp.
  unfold bind at 1. unfold emit, modify. fold (entered i w).
  unfold bind at 1. unfold try_catch, tryItem, limiter_schedule.
  unfold bind at 1. rewrite Hr.
  unfold advanced, paced, saveJsonFile, emit, modify, bind, get, ret, sleep. cbn.
  destruct (_ || _); cbn; destruct (i <? _); reflexivity.
Qed.

Lemma loopBody_failed postsData i post w e w2 :
  at_index postsData i = Some (Post post) ->
  postToBloggerWithRetry blogger_insert post 1 (entered i w) = (Throw e, w2) ->
  Str.includes "Rate limit exceeded" (message e) = false ->
  loopBody blogger_insert postsData i w =
  (Ret tt, paced postsData i (recorded i post e w2)).
Proof.
  intros Hp Hr Hm. unfold loopBody. rewrite Hp.
  unfold bind at 1. unfold emit, modify. fold (entered i w).
  unfold bind at 1. unfold try_catch, tryItem, limiter_schedule.
  unfold bind at 1. rewrite Hr.
  unfold catchItem. rewrite Hm.
  unfold recorded, paced, saveJsonFile, sendWhatsAppMessage, emit, modify,
    bind, get, ret, sleep. cbn.
  rewrite <- app_assoc. cbn.
  destruct (i <? _); reflexivity.
Qed.

Lemma loopBody_aborted postsData i post w e w2 :
  at_index postsData i = Some (Post post) ->
  postToBloggerWithRetry blogger_insert post 1 (entered i w) = (Throw e, w2) ->
  Str.includes "Rate limit exceeded" (message e) = true ->
  loopBody blogger_insert postsData i w = (Exit 1, aborted i post e w2).
Proof.
  intros Hp Hr Hm. unfold loopBody. rewrite Hp.
  unfold bind at 1. unfold emit, modify. fold (entered i w).
  unfold bind at 1. unfold try_catch, tryItem, limiter_schedule.
  unfold bind at 1. rewrite Hr.
  unfold catchItem. rewrite Hm.
  unfold aborted, reported, reportOf, recorded, generateReport, loadPostedIds,
    loadJsonFile, saveJsonFile, sendWhatsAppMessage, emit, modify, bind, get, ret,
    process_exit.
  cbn. rewrite <- !app_assoc. reflexivity.
Qed.

Lemma loopBody_undefined postsData i w :
  at_index postsData i = None ->
  loopBody blogger_insert postsData i w = (Throw typeError_post_undefined, w).
Proof. intros H. unfold loopBody. rewrite H. reflexivity. Qed.

Lemma loopBody_untitled postsData i w :
  at_index postsData i = Some Untitled ->
  loopBody blogger_insert postsData i w = (Throw typeError_title_undefined, w).
Proof. intros H. unfold loopBody. rewrite H. reflexivity. Qed.

Lemma loopBody_non_string postsData i w :
  at_index postsData i = Some NonStringTitle ->
  loopBody blogger_insert postsData i w = (Throw typeError_not_a_function, w).
Proof. intros H. unfold loopBody. rewrite H. reflexivity. Qed.

End DriverFacts.

Section RunFacts.

Variable blogger_insert : nat -> RequestBody -> InsertResult.
Variable blogger_listed : list string.

Lemma finalize_run w : finalize w = (Exit 0, finalized w).
Proof.
  unfold finalize, finalized, reported, reportOf, generateReport, loadPostedIds,
    loadJsonFile, saveJsonFile, sendWhatsAppMessage, emit, modify, bind, get, ret,
    process_exit.
  destruct (0 <? length (failed (progress w)))%nat; cbn;
    rewrite <- ?app_assoc; reflexivity.
Qed.

Lemma fatalHandler_run err w : fatalHandler err w = (Exit 1, crashed err w).
Proof.
  unfold fatalHandler, crashed, fatalReason. unfold bind at 1.
  unfold loadJsonFile at 1. unfold bind at 1. unfold get, ret.
  unfold bind. rewrite generateReport_run. reflexivity.
Qed.

(** The script, split at the loop. *)
Lemma script_run d :
  script blogger_insert blogger_listed (boot d) =
  let postsData := default [] (posts_json d) in
  let start := lastProcessed (default (mkProgress (-1) []) (progress_json d)) + 1 in
  match forLoop blogger_insert postsData start (started blogger_listed d) with
  | (Ret _, w) => (Exit 0, finalized w)
  | (Throw e, w) => (Exit 1, crashed e w)
  | (Exit c, w) => (Exit c, w)
  end.
Proof.
  cbv zeta.
  assert (H : postToBlogger blogger_insert blogger_listed (boot d) =
              (forLoop blogger_insert (default [] (posts_json d))
                 (lastProcessed (default (mkProgress (-1) []) (progress_json d)) + 1) ;;
               finalize) (started blogger_listed d)).
  { unfold postToBlogger, started, fetchedTitles, fetchExistingTitles, loadPostedIds,
      loadJsonFile, saveJsonFile, sendWhatsAppMessage, emit, modify, bind, get, ret,
      boot.
    cbn. destruct (existing_titles_json d) as [[|t l]|]; reflexivity. }
  unfold script, try_catch. rewrite H. unfold bind.
  destruct (forLoop _ _ _ _) as [[[]|e|c] w].
  - rewrite finalize_run. reflexivity.
  - apply fatalHandler_run.
  - reflexivity.
Qed.

End RunFacts.

Section LoopFacts.

Variable blogger_insert : nat -> RequestBody -> InsertResult.

Lemma itemsOf_app (l1 l2 : list Event) : itemsOf (l1 ++ l2) = itemsOf l1 ++ itemsOf l2.
Proof.
  induction l1 as [|[] l1 IH]; cbn; rewrite ?IH; reflexivity.
Qed.

Lemma savedCursors_app (l1 l2 : list Event) :
  savedCursors (l1 ++ l2) = savedCursors l1 ++ savedCursors l2.
Proof.
  induction l1 as [|[| | | |[]] l1 IH]; cbn; rewrite ?IH; reflexivity.
Qed.

Lemma itemsOf_retry (evs : list Event) :
  forallb retryEvent evs = true -> itemsOf evs = [].
Proof.
  induction evs as [|[| | | |[]] evs IH]; cbn; intros H; try discriminate; auto.
Qed.

Lemma savedCursors_retry (evs : list Event) :
  forallb retryEvent evs = true -> savedCursors evs = [].
Proof.
  induction evs as [|[| | | |[]] evs IH]; cbn; intros H; try discriminate; auto.
Qed.

Lemma trace_paced postsData i w :
  exists evs, trace (paced postsData i w) = trace w ++ evs /\
              itemsOf evs = [] /\ savedCursors evs = [].
Proof.
  unfold paced. destruct (i <? _).
  - eexists. cbn. split; [reflexivity|]. split; reflexivity.
  - exists []. rewrite app_nil_r. repeat split.
Qed.

Lemma paced_progress postsData i w : progress (paced postsData i w) = progress w.
Proof. unfold paced. destruct (i <? _); reflexivity. Qed.

Lemma paced_disk postsData i w : disk (paced postsData i w) = disk w.
Proof. unfold paced. destruct (i <? _); reflexivity. Qed.

Lemma advanced_facts postsData i w :
  exists evs,
    trace (advanced postsData i w) = trace w ++ evs /\
    itemsOf evs = [] /\
    (savedCursors evs = [] \/ savedCursors evs = [i]) /\
    lastProcessed (progress (advanced postsData i w)) = i /\
    failed (progress (advanced postsData i w)) = failed (progress w) /\
    (i = Z.of_nat (length postsData) - 1 ->
     progress_json (disk (advanced postsData i w)) = Some (progress (advanced postsData i w))) /\
    posts_json (disk (advanced postsData i w)) = posts_json (disk w).
Proof.
  unfold advanced. destruct (_ || _) eqn:Hsave; cbn.
  - eexists. split; [reflexivity|]. cbn. repeat split; auto.
  - exists []. rewrite app_nil_r. repeat split; auto.
    intros Hl. apply orb_false_iff in Hsave as [_ Hsave]. lia.
Qed.

(** Every iteration is one of the three cases of [iter_run]. *)
Lemma loopBody_run postsData i w :
  exists evs,
    iter_run postsData i w (fst (loopBody blogger_insert postsData i w))
             (snd (loopBody blogger_insert postsData i w)) evs.
Proof.
  destruct (at_index postsData i) as [[post| |]|] eqn:Hp.
  2:{ rewrite loopBody_untitled by assumption. eexists. constructor. }
  2:{ rewrite loopBody_non_string by assumption. eexists. constructor. }
  2:{ rewrite loopBody_undefined by assumption. eexists. constructor. }
  destruct (retry_total blogger_insert post _ 1 (entered i w) eq_refl)
    as (evs & [Ht Hev Hpr Hc Hpj Hgj Hfj Hrj] & _ & Hne).
  destruct (postToBloggerWithRetry blogger_insert post 1 (entered i w))
    as [[o|e|c] w2] eqn:Hr; cbn [fst snd] in *.
  - rewrite (loopBody_returned _ _ _ post w o w2) by assumption. cbn [fst snd].
    destruct (trace_paced postsData i (advanced postsData i w2)) as (evp & Htp & Hip & Hsp).
    destruct (advanced_facts postsData i w2)
      as (eva & Hta & Hia & Hsa & Hla & Hfa & Hja & Hpa).
    exists ([EItem i] ++ evs ++ eva ++ evp). constructor.
    + rewrite Htp, Hta, Ht. cbn. rewrite <- !app_assoc. reflexivity.
    + cbn. rewrite !itemsOf_app, itemsOf_retry, Hip, Hia by assumption. reflexivity.
    + rewrite paced_progress. exact Hla.
    + rewrite paced_progress, Hfa, Hpr. reflexivity.
    + cbn. rewrite !savedCursors_app, savedCursors_retry, Hsp by assumption.
      rewrite app_nil_r. exact Hsa.
    + rewrite paced_progress, paced_disk. exact Hja.
    + rewrite paced_disk, Hpa, Hpj. reflexivity.
  - destruct (Str.includes "Rate limit exceeded" (message e)) eqn:Hm.
    + rewrite (loopBody_aborted _ _ _ post w e w2) by assumption. cbn [fst snd].
      eexists. apply (iter_caught _ _ _ _ _ _ (title post) (message e)).
      * right. reflexivity.
      * unfold aborted, reported, recorded. cbn [trace]. rewrite Ht. cbn [entered set_trace trace].
        rewrite <- !app_assoc. reflexivity.
      * cbn. rewrite !itemsOf_app, itemsOf_retry by assumption. reflexivity.
      * cbn. rewrite Hpr. reflexivity.
      * cbn. rewrite Hpr. reflexivity.
      * cbn. rewrite !savedCursors_app, savedCursors_retry by assumption.
        cbn. rewrite Hpr. reflexivity.
      * reflexivity.
      * cbn. exact Hpj.
    + rewrite (loopBody_failed _ _ _ post w e w2) by assumption. cbn [fst snd].
      destruct (trace_paced postsData i (recorded i post e w2)) as (evp & Htp & Hip & Hsp).
      eexists. apply (iter_caught _ _ _ _ _ _ (title post) (message e)).
      * left. reflexivity.
      * rewrite Htp. unfold recorded. cbn [trace]. rewrite Ht. cbn [entered set_trace trace].
        rewrite <- !app_assoc. reflexivity.
      * cbn. rewrite !itemsOf_app, itemsOf_retry by assumption. cbn. rewrite Hip. reflexivity.
      * rewrite paced_progress. cbn. rewrite Hpr. reflexivity.
      * rewrite paced_progress. cbn. rewrite Hpr. reflexivity.
      * cbn. rewrite !savedCursors_app, savedCursors_retry by assumption.
        cbn. rewrite Hpr, Hsp. reflexivity.
      * rewrite paced_progress, paced_disk. reflexivity.
      * rewrite paced_disk. cbn. exact Hpj.
  - exfalso. apply (Hne c). reflexivity.
Qed.

End LoopFacts.

Section LoopInvariant.

Variable blogger_insert : nat -> RequestBody -> InsertResult.

Lemma forLoop_step postsData i w :
  i < Z.of_nat (length postsData) ->
  forLoop blogger_insert postsData i w =
  match loopBody blogger_insert postsData i w with
  | (Ret _, w1) => forLoop blogger_insert postsData (i + 1) w1
  | (Throw e, w1) => (Throw e, w1)
  | (Exit c, w1) => (Exit c, w1)
  end.
Proof. intros H. rewrite forLoop_lt by assumption. reflexivity. Qed.

Lemma seqZ_step (i len : Z) : i < len -> seqZ i (len - i) = i :: seqZ (i + 1) (len - (i + 1)).
Proof.
  intros H. replace (len - i) with (Z.succ (len - (i + 1))) by lia.
  rewrite seqZ_cons by lia. f_equal. f_equal; lia.
Qed.

(** The loop invariant: from any index above the cursor, the loop
    enters the following indices in order, never moves the cursor
    back, and persists cursors in non-decreasing order. *)
Lemma forLoop_run postsData (n : nat) :
  forall i w,
    Z.to_nat (Z.of_nat (length postsData) - i) = n ->
    lastProcessed (progress w) < i ->
    exists evs,
      loop_run postsData i w (fst (forLoop blogger_insert postsData i w))
               (snd (forLoop blogger_insert postsData i w)) evs.
Proof.
  induction n as [|n IH]; intros i w Hn Hlp.
  { rewrite forLoop_ge by lia. exists []. cbn [fst snd]. split; cbn.
    - symmetry. apply app_nil_r.
    - auto.
    - auto.
    - apply prefix_nil.
    - intros _. rewrite seqZ_nil by lia. reflexivity.
    - lia.
    - auto.
    - constructor.
    - constructor.
    - intros j Hj. apply elem_of_nil in Hj as [].
    - reflexivity.
    - lia.
    - reflexivity. }
  assert (Hi : i < Z.of_nat (length postsData)) by lia.
  rewrite forLoop_step by assumption.
  destruct (loopBody_run blogger_insert postsData i w) as (evs1 & Hrun).
  destruct (loopBody blogger_insert postsData i w) as [r1 w1]. cbn [fst snd] in Hrun.
  destruct Hrun as [e|w1 evs1 Ht Hit Hl Hf Hs Hpj Hpo|r1 w1 evs1 t msg Hr Ht Hit Hl Hf Hs Hpj Hpo];
    cbn [fst snd].
  - (* lines 280-281 threw *)
    exists []. split; cbn.
    + symmetry. apply app_nil_r.
    + right. left. eauto.
    + lia.
    + apply prefix_nil.
    + discriminate.
    + lia.
    + auto.
    + constructor.
    + constructor.
    + intros j Hj. apply elem_of_nil in Hj as [].
    + reflexivity.
    + discriminate.
    + reflexivity.
  - (* the attempt returned *)
    destruct (IH (i + 1) w1 ltac:(lia) ltac:(lia)) as (evs2 & H2).
    destruct (forLoop blogger_insert postsData (i + 1) w1) as [r w'].
    cbn [fst snd] in *. destruct H2 as [Ht2 Hr2 Hd2 Hi2 Ha2 Hc2 Hci2 Hss2 Hsr2 Hfa2 Hfg2 Hp2 Hpo2].
    exists (evs1 ++ evs2). split.
    + rewrite Ht2, Ht, <- app_assoc. reflexivity.
    + exact Hr2.
    + lia.
    + rewrite itemsOf_app, Hit, seqZ_step by assumption. cbn.
      apply prefix_cons. exact Hi2.
    + intros Hret. rewrite itemsOf_app, Hit, seqZ_step, Ha2 by assumption. reflexivity.
    + lia.
    + right. rewrite itemsOf_app, Hit. destruct Hci2 as [->|Hin].
      * rewrite Hl. apply elem_of_app. left. apply list_elem_of_singleton. reflexivity.
      * apply elem_of_app. right. exact Hin.
    + rewrite savedCursors_app.
      assert (Hge : Forall (fun c => i <= c) (savedCursors evs2)).
      { eapply Forall_impl; [exact Hsr2|]. cbn. intros c Hc. lia. }
      destruct Hs as [->| ->]; cbn; [exact Hss2|]. constructor; assumption.
    + rewrite savedCursors_app. apply Forall_app. split.
      * destruct Hs as [->| ->]; constructor; [lia|constructor].
      * eapply Forall_impl; [exact Hsr2|]. cbn. intros c Hc. lia.
    + intros j Hj Hlt. rewrite itemsOf_app, Hit in Hj.
      apply elem_of_app in Hj as [Hj|Hj].
      * apply list_elem_of_singleton in Hj. lia.
      * apply Hfa2; assumption.
    + rewrite <- Hf. exact Hfg2.
    + intros Hret _. destruct (Z_lt_le_dec (i + 1) (Z.of_nat (length postsData))) as [Hlt|Hge].
      * apply Hp2; assumption.
      * destruct (Hd2 Hge) as [_ ->]. apply Hpj. lia.
    + rewrite Hpo2. exact Hpo.
  - (* the attempt threw *)
    assert (Hin : i ∈ index <$> failed (progress w1)).
    { rewrite Hf, fmap_app. apply elem_of_app. right. cbn.
      apply list_elem_of_singleton. reflexivity. }
    destruct Hr as [->| ->].
    + destruct (IH (i + 1) w1 ltac:(lia) ltac:(lia)) as (evs2 & H2).
      destruct (forLoop blogger_insert postsData (i + 1) w1) as [r w'].
      cbn [fst snd] in *.
      destruct H2 as [Ht2 Hr2 Hd2 Hi2 Ha2 Hc2 Hci2 Hss2 Hsr2 Hfa2 Hfg2 Hp2 Hpo2].
      exists (evs1 ++ evs2). split.
      * rewrite Ht2, Ht, <- app_assoc. reflexivity.
      * exact Hr2.
      * lia.
      * rewrite itemsOf_app, Hit, seqZ_step by assumption. cbn.
        apply prefix_cons. exact Hi2.
      * intros Hret. rewrite itemsOf_app, Hit, seqZ_step, Ha2 by assumption. reflexivity.
      * lia.
      * rewrite itemsOf_app. destruct Hci2 as [->|Hin2].
        -- left. exact Hl.
        -- right. apply elem_of_app. right. exact Hin2.
      * rewrite savedCursors_app, Hs. cbn. constructor; [exact Hss2|].
        eapply Forall_impl; [exact Hsr2|]. cbn. intros c Hc. lia.
      * rewrite savedCursors_app, Hs. cbn. constructor; [lia|].
        eapply Forall_impl; [exact Hsr2|]. cbn. intros c Hc. lia.
      * intros j Hj Hlt. rewrite itemsOf_app, Hit in Hj.
        apply elem_of_app in Hj as [Hj|Hj].
        -- apply list_elem_of_singleton in Hj. subst j.
           destruct Hfg2 as [k ->]. rewrite fmap_app. apply elem_of_app. left. exact Hin.
        -- apply Hfa2; assumption.
      * etransitivity; [|exact Hfg2]. rewrite Hf. apply prefix_app_r. reflexivity.
      * intros Hret _.
        destruct (Z_lt_le_dec (i + 1) (Z.of_nat (length postsData))) as [Hlt|Hge].
        -- apply Hp2; assumption.
        -- destruct (Hd2 Hge) as [_ ->]. exact Hpj.
      * rewrite Hpo2. exact Hpo.
    + exists evs1. split; cbn [fst snd].
      * exact Ht.
      * auto.
      * lia.
      * rewrite Hit, seqZ_step by assumption. apply prefix_cons, prefix_nil.
      * discriminate.
      * lia.
      * left. exact Hl.
      * rewrite Hs. repeat constructor.
      * rewrite Hs. repeat constructor; lia.
      * intros j Hj _. rewrite Hit in Hj. apply list_elem_of_singleton in Hj. subst j.
        exact Hin.
      * rewrite Hf. apply prefix_app_r. reflexivity.
      * discriminate.
      * exact Hpo.
Qed.

End LoopInvariant.

Section RunInvariant.

Variable blogger_insert : nat -> RequestBody -> InsertResult.
Variable blogger_listed : list string.

(** Position and cursor at which the run on disk [d] enters the loop. *)
Lemma started_progress d :
  progress (started blogger_listed d) = default (mkProgress (-1) []) (progress_json d).
Proof. unfold started. destruct (0 <? _)%nat; reflexivity. Qed.

Lemma started_trace d :
  itemsOf (trace (started blogger_listed d)) = [] /\
  savedCursors (trace (started blogger_listed d)) = [] /\
  insertCalls (trace (started blogger_listed d)) = 0%nat.
Proof. unfold started. destruct (0 <? _)%nat; repeat split. Qed.

Lemma started_disk d :
  posts_json (disk (started blogger_listed d)) = posts_json d /\
  progress_json (disk (started blogger_listed d)) = progress_json d /\
  posted_ids_json (disk (started blogger_listed d)) = posted_ids_json d /\
  reports (disk (started blogger_listed d)) = reports d.
Proof. unfold started. destruct (0 <? _)%nat; repeat split. Qed.

Lemma reported_trace successCount failedPosts reason w :
  trace (reported successCount failedPosts reason w) =
  trace w ++ [ESave (SavedReport (reportOf successCount failedPosts reason w));
              ENotify (NoticeReport (reportOf successCount failedPosts reason w))].
Proof. reflexivity. Qed.

Lemma finalized_trace w :
  exists evs, trace (finalized w) = trace w ++ evs /\
              itemsOf evs = [] /\ savedCursors evs = [] /\ insertCalls evs = 0%nat.
Proof.
  unfold finalized. destruct (0 <? _)%nat; cbn [trace set_trace reported];
    rewrite <- ?app_assoc; eexists; (split; [reflexivity|]); repeat split.
Qed.

Lemma finalized_disk w :
  progress_json (disk (finalized w)) = progress_json (disk w) /\
  posts_json (disk (finalized w)) = posts_json (disk w) /\
  progress (finalized w) = progress w.
Proof. unfold finalized. destruct (0 <? _)%nat; repeat split. Qed.

Lemma crashed_trace e w :
  exists evs, trace (crashed e w) = trace w ++ evs /\
              itemsOf evs = [] /\ savedCursors evs = [] /\ insertCalls evs = 0%nat.
Proof. unfold crashed. rewrite reported_trace. eexists. split; [reflexivity|]. repeat split. Qed.

(** A run is its start-up, the loop, and one of three endings. *)
Lemma script_summary d :
  let postsData := default [] (posts_json d) in
  let cursor := lastProcessed (default (mkProgress (-1) []) (progress_json d)) in
  exists rl wl evs,
    loop_run postsData (cursor + 1) (started blogger_listed d) rl wl evs /\
    script blogger_insert blogger_listed (boot d) =
    match rl with
    | Ret _ => (Exit 0, finalized wl)
    | Throw e => (Exit 1, crashed e wl)
    | Exit c => (Exit c, wl)
    end.
Proof.
  cbv zeta. rewrite script_run. cbv zeta.
  set (postsData := default [] (posts_json d)).
  set (cursor := lastProcessed _).
  destruct (forLoop_run blogger_insert postsData _ (cursor + 1) (started blogger_listed d)
              eq_refl) as (evs & Hrun).
  { rewrite started_progress. fold cursor. lia. }
  destruct (forLoop blogger_insert postsData (cursor + 1) (started blogger_listed d))
    as [rl wl].
  exists rl, wl, evs. split; [exact Hrun|]. reflexivity.
Qed.

(** Items entered and cursors persisted by a whole run are those of
    its loop. *)
Lemma script_events d :
  let postsData := default [] (posts_json d) in
  let cursor := lastProcessed (default (mkProgress (-1) []) (progress_json d)) in
  let run := script blogger_insert blogger_listed (boot d) in
  exists rl wl evs,
    loop_run postsData (cursor + 1) (started blogger_listed d) rl wl evs /\
    (exitCode run = Some 0 <-> rl = Ret tt) /\
    itemsOf (trace (snd run)) = itemsOf evs /\
    savedCursors (trace (snd run)) = savedCursors evs /\
    progress (snd run) = progress wl /\
    progress_json (disk (snd run)) = progress_json (disk wl) /\
    posts_json (disk (snd run)) = posts_json d.
Proof.
  cbv zeta. destruct (script_summary d) as (rl & wl & evs & Hrun & Hs).
  exists rl, wl, evs. split; [exact Hrun|]. rewrite Hs.
  destruct (started_trace d) as (Hi0 & Hs0 & _).
  destruct (started_disk d) as (Hp0 & _).
  pose proof (lr_trace _ _ _ _ _ _ Hrun) as Ht.
  pose proof (lr_posts _ _ _ _ _ _ Hrun) as Hpo.
  destruct (lr_result _ _ _ _ _ _ Hrun) as [->|[[e ->]| ->]]; cbn [fst snd exitCode].
  - destruct (finalized_trace wl) as (evf & Htf & Hif & Hsf & _).
    destruct (finalized_disk wl) as (Hd1 & Hd2 & Hd3).
    rewrite Htf, Ht, !itemsOf_app, !savedCursors_app, Hi0, Hs0, Hif, Hsf, !app_nil_r.
    rewrite Hd1, Hd2, Hd3, Hpo, Hp0. cbn. repeat split; auto.
  - destruct (crashed_trace e wl) as (evf & Htf & Hif & Hsf & _).
    rewrite Htf, Ht, !itemsOf_app, !savedCursors_app, Hi0, Hs0, Hif, Hsf, !app_nil_r.
    cbn. rewrite Hpo, Hp0. repeat split; auto; discriminate.
  - rewrite Ht, !itemsOf_app, !savedCursors_app, Hi0, Hs0. cbn.
    rewrite Hpo, Hp0. repeat split; auto; discriminate.
Qed.

End RunInvariant.

(** C6. In a run, the cursor [progress.lastProcessed] never moves back:
    the values persisted to [progress.json] are in non-decreasing order
    and none is below the value the run loaded, and the cursor in memory
    ends at or above it, at the loaded value or at an index the loop
    entered.  The run enters the indices that follow the
    loaded cursor, in order, starting at [lastProcessed + 1], and enters
    all of them up to the last when it completes (exit code 0); so a run
    resumed at [lastProcessed = 1] over 5 posts enters exactly 2, 3, 4. *)
Theorem cursor_monotone (blogger_insert : nat -> RequestBody -> InsertResult)
    (blogger_listed : list string) (d : Disk) :
  let postsData := default [] (posts_json d) in
  let cursor := lastProcessed (default (mkProgress (-1) []) (progress_json d)) in
  let run := script blogger_insert blogger_listed (boot d) in
  let entered := itemsOf (trace (snd run)) in
  StronglySorted Z.le (cursor :: savedCursors (trace (snd run))) /\
  cursor <= lastProcessed (progress (snd run)) /\
  (lastProcessed (progress (snd run)) = cursor \/
   lastProcessed (progress (snd run)) ∈ entered) /\
  entered `prefix_of` seqZ (cursor + 1) (Z.of_nat (length postsData) - (cursor + 1)) /\
  (exitCode run = Some 0 ->
   entered = seqZ (cursor + 1) (Z.of_nat (length postsData) - (cursor + 1))) /\
  (exitCode run = Some 0 -> cursor = 1 -> length postsData = 5%nat ->
   entered = [2; 3; 4]).
Proof.
  cbv zeta.
  destruct (script_events blogger_insert blogger_listed d)
    as (rl & wl & evs & Hrun & Hex & Hi & Hs & Hp & _).
  cbv zeta in *. rewrite Hi, Hs, Hp.
  destruct Hrun as [Ht Hr Hd Hit Hall Hc Hci Hss Hsr Hfa Hfg Hpe Hpo].
  rewrite started_progress in *.
  split; [|split; [|split; [|split; [|split]]]].
  - constructor; [exact Hss|]. eapply Forall_impl; [exact Hsr|]. cbn. intros c Hc'. lia.
  - exact Hc.
  - exact Hci.
  - exact Hit.
  - intros H0. apply Hall. apply Hex. exact H0.
  - intros H0 H1 H5. rewrite Hall by (apply Hex; exact H0). rewrite H1, H5. reflexivity.
Qed.

Lemma cursor_monotone_witness :
  let d := mkDisk (Some [Post (samplePost "A"); Post (samplePost "B"); Post (samplePost "C");
                         Post (samplePost "D"); Post (samplePost "E")])
                  (Some ["A"; "B"]) (Some (mkProgress 1 [])) None None [] in
  itemsOf (trace (snd (script alwaysInserted [] (boot d)))) = [2; 3; 4].
Proof.
  cbv zeta.
  apply (proj2 (proj2 (proj2 (proj2 (proj2 (cursor_monotone alwaysInserted [] _))))));
    reflexivity.
Defined.

Section Resume.

Variable blogger_insert : nat -> RequestBody -> InsertResult.
Variable blogger_listed : list string.

(** After a completed run, [progress.json] holds the progress object
    of the run (or is still absent, and the object is the default). *)
Lemma completed_progress d rl wl evs :
  let postsData := default [] (posts_json d) in
  let cursor := lastProcessed (default (mkProgress (-1) []) (progress_json d)) in
  loop_run postsData (cursor + 1) (started blogger_listed d) rl wl evs ->
  rl = Ret tt ->
  default (mkProgress (-1) []) (progress_json (disk wl)) = progress wl.
Proof.
  cbv zeta. intros Hrun ->.
  destruct (Z_lt_le_dec
              (lastProcessed (default (mkProgress (-1) []) (progress_json d)) + 1)
              (Z.of_nat (length (default [] (posts_json d))))) as [Hlt|Hge].
  - rewrite (lr_persisted _ _ _ _ _ _ Hrun eq_refl Hlt). reflexivity.
  - destruct (lr_done _ _ _ _ _ _ Hrun Hge) as [_ ->].
    rewrite started_progress. destruct (started_disk blogger_listed d) as (_ & -> & _).
    reflexivity.
Qed.

(** The attempt of an iteration leaves the progress object alone. *)
Lemma attempt_progress post i w r w2 :
  postToBloggerWithRetry blogger_insert post 1 (entered i w) = (r, w2) ->
  progress w2 = progress w.
Proof.
  intros Hr.
  destruct (retry_total blogger_insert post _ 1 (entered i w) eq_refl) as (evs & Hf & _).
  rewrite Hr in Hf. cbn [snd] in Hf. rewrite (rf_progress _ _ _ Hf). reflexivity.
Qed.

End Resume.

(** C9. When the attempt of an item throws, the iteration leaves
    [progress.lastProcessed] as it was, in memory and in the
    [progress.json] it persists.  Hence, after a completed run, every
    index the run entered beyond the persisted cursor is a recorded
    failure, and a run resumed on the files it left enters the indices
    from the persisted cursor + 1 on, these failed ones included. *)
Theorem failed_items_not_marked (blogger_insert : nat -> RequestBody -> InsertResult)
    (blogger_listed : list string) :
  (forall postsData i post w e w2,
     at_index postsData i = Some (Post post) ->
     postToBloggerWithRetry blogger_insert post 1 (entered i w) = (Throw e, w2) ->
     let w3 := snd (loopBody blogger_insert postsData i w) in
     lastProcessed (progress w3) = lastProcessed (progress w) /\
     progress_json (disk w3) = Some (progress w3)) /\
  (forall d,
     let run := script blogger_insert blogger_listed (boot d) in
     let d' := disk (snd run) in
     let progress' := default (mkProgress (-1) []) (progress_json d') in
     let rest := seqZ (lastProcessed progress' + 1)
                      (Z.of_nat (length (default [] (posts_json d))) -
                       (lastProcessed progress' + 1)) in
     exitCode run = Some 0 ->
     (forall j, j ∈ itemsOf (trace (snd run)) -> lastProcessed progress' < j ->
                j ∈ index <$> failed progress') /\
     (forall blogger_insert2 blogger_listed2,
        let run2 := script blogger_insert2 blogger_listed2 (boot d') in
        itemsOf (trace (snd run2)) `prefix_of` rest /\
        (exitCode run2 = Some 0 -> itemsOf (trace (snd run2)) = rest))).
Proof.
  split.
  - intros postsData i post w e w2 Hp Hr. cbv zeta.
    pose proof (attempt_progress _ _ _ _ _ _ Hr) as Hpr.
    destruct (Str.includes "Rate limit exceeded" (message e)) eqn:Hm.
    + rewrite (loopBody_aborted _ _ _ post w e w2) by assumption. cbn.
      rewrite Hpr. split; reflexivity.
    + rewrite (loopBody_failed _ _ _ post w e w2) by assumption. cbn [snd].
      rewrite paced_progress, paced_disk. cbn. rewrite Hpr. split; reflexivity.
  - intros d. cbv zeta. intros H0.
    destruct (script_events blogger_insert blogger_listed d)
      as (rl & wl & evs & Hrun & Hex & Hi & _ & _ & Hpj & Hpo).
    cbv zeta in *. apply Hex in H0.
    rewrite Hi, Hpj, (completed_progress _ _ _ _ _ Hrun H0).
    split.
    + exact (lr_failed_after _ _ _ _ _ _ Hrun).
    + intros blogger_insert2 blogger_listed2.
      destruct (script_events blogger_insert2 blogger_listed2
                  (disk (snd (script blogger_insert blogger_listed (boot d)))))
        as (rl2 & wl2 & evs2 & Hrun2 & Hex2 & Hi2 & _).
      cbv zeta in *. rewrite Hi2.
      rewrite Hpo, Hpj, (completed_progress _ _ _ _ _ Hrun H0) in Hrun2.
      split.
      * exact (lr_items _ _ _ _ _ _ Hrun2).
      * intros H2. apply (lr_items_all _ _ _ _ _ _ Hrun2). apply Hex2. exact H2.
Qed.

Lemma failed_items_not_marked_witness :
  let err := mkError "Backend Error" (CodeNum 500) ["backendError"] in
  let blogger_insert := fun (n : nat) (_ : RequestBody) =>
    match n with O => Inserted sampleData | _ => Rejected err end in
  let d := freshDisk [Post (samplePost "A"); Post (samplePost "B"); Post (samplePost "C")] in
  let run := script blogger_insert [] (boot d) in
  let w3 := snd (loopBody (alwaysRejected err) [Post (samplePost "A")] 0 (boot d)) in
  (lastProcessed (progress w3) = -1 /\ progress_json (disk w3) = Some (progress w3)) /\
  exitCode run = Some 0 /\
  progress_json (disk (snd run)) =
    Some (mkProgress 0 [mkFailed 1 "B" "Backend Error"; mkFailed 2 "C" "Backend Error"]) /\
  itemsOf (trace (snd (script alwaysInserted [] (boot (disk (snd run)))))) = [1; 2].
Proof.
  cbv zeta. split.
  { refine (proj1 (failed_items_not_marked _ []) [Post (samplePost "A")] 0
              (samplePost "A") (boot (freshDisk _))
              (mkError "Backend Error" (CodeNum 500) ["backendError"])
              (rejected (samplePost "A") (entered 0 (boot (freshDisk _)))) eq_refl _).
    vm_compute. reflexivity. }
  split; [reflexivity|]. split; [reflexivity|].
  refine (proj2 (proj2 (proj2 (failed_items_not_marked _ []) (freshDisk _) _)
                   alwaysInserted []) _); reflexivity.
Defined.

(** C7. The pacing delay is the three-tier step function of
    [postedIds.size]: 10000 ms below 40, 30000 ms from 40 to 44,
    33000 ms from 45 on, hence non-decreasing.  After an attempt that
    returned, the iteration ends with that wait and then the loop goes on
    with the next index; after the last item there is no wait: the loop
    ends in the world the [try] block left. *)
Theorem pacing_policy (blogger_insert : nat -> RequestBody -> InsertResult) :
  (forall c, c < 40 -> pacingDelay c = 10000) /\
  (forall c, 40 <= c < 45 -> pacingDelay c = 30000) /\
  (forall c, 45 <= c -> pacingDelay c = 33000) /\
  (forall c c', c <= c' -> pacingDelay c <= pacingDelay c') /\
  (forall postsData i post w o w2,
     at_index postsData i = Some (Post post) ->
     postToBloggerWithRetry blogger_insert post 1 (entered i w) = (Ret o, w2) ->
     let wa := advanced postsData i w2 in
     let delay := pacingDelay (JsSet.size (postedIds w2)) in
     (i < Z.of_nat (length postsData) - 1 ->
      forLoop blogger_insert postsData i w =
      forLoop blogger_insert postsData (i + 1) (set_trace (trace wa ++ [ESleep delay]) wa)) /\
     (i = Z.of_nat (length postsData) - 1 ->
      forLoop blogger_insert postsData i w = (Ret tt, wa) /\
      trace wa = trace w2 ++ [ESave (SavedProgress (mkProgress i (failed (progress w2))))])).
Proof.
  assert (Hd : forall c,
             (c < 40 /\ pacingDelay c = 10000) \/
             (40 <= c < 45 /\ pacingDelay c = 30000) \/
             (45 <= c /\ pacingDelay c = 33000)).
  { intros c. unfold pacingDelay, RATE_LIMIT.BASE_DELAY.
    destruct (40 <=? c) eqn:H1; destruct (c <? 45) eqn:H2; destruct (45 <=? c) eqn:H3;
      cbn; lia. }
  split; [|split; [|split; [|split]]].
  - intros c Hc. destruct (Hd c) as [[_ ?]|[[? _]|[? _]]]; [assumption|lia..].
  - intros c Hc. destruct (Hd c) as [[? _]|[[_ ?]|[? _]]]; [lia|assumption|lia].
  - intros c Hc. destruct (Hd c) as [[? _]|[[? _]|[_ ?]]]; [lia..|assumption].
  - intros c c' Hc. destruct (Hd c) as [[? ->]|[[? ->]|[? ->]]];
      destruct (Hd c') as [[? ->]|[[? ->]|[? ->]]]; lia.
  - intros postsData i post w o w2 Hp Hr. cbv zeta.
    assert (Hids : postedIds (advanced postsData i w2) = postedIds w2).
    { unfold advanced. destruct (_ || _); reflexivity. }
    split.
    + intros Hi. rewrite forLoop_step by lia.
      rewrite (loopBody_returned _ _ _ post w o w2) by assumption.
      unfold paced. rewrite Hids.
      destruct (i <? Z.of_nat (length postsData) - 1) eqn:Hlt; [reflexivity|lia].
    + intros Hi. rewrite forLoop_step by lia.
      rewrite (loopBody_returned _ _ _ post w o w2) by assumption.
      rewrite forLoop_ge by lia.
      unfold paced.
      destruct (i <? Z.of_nat (length postsData) - 1) eqn:Hlt; [lia|].
      split; [reflexivity|].
      unfold advanced.
      replace (i =? Z.of_nat (length postsData) - 1) with true by lia.
      rewrite orb_true_r. reflexivity.
Qed.

Lemma pacing_policy_witness :
  let postsData := [Post (samplePost "A"); Post (samplePost "B")] in
  let w := started [] (freshDisk postsData) in
  pacingDelay 39 = 10000 /\ pacingDelay 40 = 30000 /\ pacingDelay 44 = 30000 /\
  pacingDelay 45 = 33000 /\ pacingDelay 39 <= pacingDelay 46 /\
  sleepsOf (trace (snd (forLoop alwaysInserted postsData 0 w))) = [10000].
Proof.
  cbv zeta.
  pose proof (pacing_policy alwaysInserted) as (H1 & H2 & H3 & H4 & H5).
  split; [apply H1; lia|]. split; [apply H2; lia|]. split; [apply H2; lia|].
  split; [apply H3; lia|]. split; [apply H4; lia|].
  destruct (H5 [Post (samplePost "A"); Post (samplePost "B")] 0 (samplePost "A")
              (started [] (freshDisk [Post (samplePost "A"); Post (samplePost "B")]))
              (Success sampleData)
              (published (samplePost "A")
                 (entered 0 (started [] (freshDisk [Post (samplePost "A");
                                                    Post (samplePost "B")]))))
              eq_refl ltac:(vm_compute; reflexivity)) as [Hnext _].
  rewrite Hnext by (cbn; lia).
  vm_compute. reflexivity.
Defined.

(** C8, as stated, fails: a rejection with code 500 whose message is
    "Rate limit exceeded" is not accepted by [isRateLimitError] and is
    thrown after a single insert call, with no retry budget used; yet
    the driver, which recognises exhaustion by that text, ends the whole
    job: exit code 1, the third item is never entered and
    [failed_posts.json] is not written. *)
Lemma marker_message_ends_job :
  let err := mkError "Rate limit exceeded" (CodeNum 500) [] in
  let d := freshDisk [Post (samplePost "A"); Post (samplePost "B"); Post (samplePost "C")] in
  let run := script (rejectedAt 1 err) [] (boot d) in
  isRateLimitError err = false /\
  insertCalls (trace (snd run)) = 2%nat /\
  exitCode run = Some 1 /\
  itemsOf (trace (snd run)) = [0; 1] /\
  failed_posts_json (disk (snd run)) = None.
Proof. vm_compute. repeat split; reflexivity. Qed.

(** C8, amended. When the attempt of item [i] throws an error whose
    message does not contain "Rate limit exceeded", the failure is
    item-local: the entry (index, title, error message) is appended to
    [progress.failed], [progress.json] is persisted at once, a
    notification is sent, and the loop goes on with index [i + 1].  When
    the loop completes, the run writes [failed_posts.json] if
    [progress.failed] is not empty and exits with code 0. *)
Theorem item_local_failure (blogger_insert : nat -> RequestBody -> InsertResult)
    (postsData : list Entry) (i : Z) (post : PostData) (w w2 : World) (e : JsError) :
  at_index postsData i = Some (Post post) ->
  postToBloggerWithRetry blogger_insert post 1 (entered i w) = (Throw e, w2) ->
  Str.includes "Rate limit exceeded" (message e) = false ->
  let p := mkProgress (lastProcessed (progress w2))
             (failed (progress w2) ++ [mkFailed i (title post) (message e)]) in
  let w3 := snd (loopBody blogger_insert postsData i w) in
  loopBody blogger_insert postsData i w = (Ret tt, w3) /\
  progress w3 = p /\
  progress_json (disk w3) = Some p /\
  (exists evs,
     trace w3 = trace w2 ++ [ESave (SavedProgress p);
                             ENotify (NoticeItemError i (title post) (message e))] ++ evs /\
     evs = if i <? Z.of_nat (length postsData) - 1
           then [ESleep (pacingDelay (JsSet.size (postedIds w2)))] else []) /\
  forLoop blogger_insert postsData i w = forLoop blogger_insert postsData (i + 1) w3 /\
  (forall blogger_listed d wl,
     forLoop blogger_insert (default [] (posts_json d))
       (lastProcessed (default (mkProgress (-1) []) (progress_json d)) + 1)
       (started blogger_listed d) = (Ret tt, wl) ->
     script blogger_insert blogger_listed (boot d) = (Exit 0, finalized wl) /\
     (failed (progress wl) <> [] ->
      failed_posts_json (disk (finalized wl)) = Some (failed (progress wl)))).
Proof.
  intros Hp Hr Hm. cbv zeta.
  assert (Hi : i < Z.of_nat (length postsData)).
  { unfold at_index in Hp. destruct (i <? 0) eqn:H0; [discriminate|].
    apply lookup_lt_Some in Hp. lia. }
  rewrite forLoop_step by assumption.
  rewrite (loopBody_failed _ _ _ post w e w2) by assumption. cbn [fst snd].
  rewrite paced_progress, paced_disk.
  split; [reflexivity|]. split; [reflexivity|]. split; [reflexivity|].
  split; [|split; [reflexivity|]].
  - unfold paced. destruct (i <? _).
    + eexists. split; [|reflexivity]. cbn. rewrite <- app_assoc. reflexivity.
    + eexists. split; [|reflexivity]. reflexivity.
  - intros blogger_listed d wl Hl. rewrite script_run. cbv zeta. rewrite Hl.
    split; [reflexivity|].
    intros Hne. unfold finalized.
    destruct (failed (progress wl)) as [|f l] eqn:Hf; [congruence|]. reflexivity.
Qed.

Lemma item_local_failure_witness :
  let err := mkError "Backend Error" (CodeNum 500) ["backendError"] in
  let blogger_insert := rejectedAt 1 err in
  let postsData := [Post (samplePost "A"); Post (samplePost "B"); Post (samplePost "C")] in
  let run := script blogger_insert [] (boot (freshDisk postsData)) in
  let w := snd (loopBody blogger_insert postsData 0 (started [] (freshDisk postsData))) in
  let w3 := snd (loopBody blogger_insert postsData 1 w) in
  (progress w3 = mkProgress 0 [mkFailed 1 "B" "Backend Error"] /\
   forLoop blogger_insert postsData 1 w = forLoop blogger_insert postsData 2 w3) /\
  exitCode run = Some 0 /\
  itemsOf (trace (snd run)) = [0; 1; 2] /\
  insertCalls (trace (snd run)) = 3%nat /\
  posted_ids_json (disk (snd run)) = Some ["A"; "C"] /\
  progress_json (disk (snd run)) = Some (mkProgress 2 [mkFailed 1 "B" "Backend Error"]) /\
  failed_posts_json (disk (snd run)) = Some [mkFailed 1 "B" "Backend Error"].
Proof.
  cbv zeta. split.
  { destruct (item_local_failure
                (rejectedAt 1 (mkError "Backend Error" (CodeNum 500) ["backendError"]))
                [Post (samplePost "A"); Post (samplePost "B"); Post (samplePost "C")]
                1 (samplePost "B")
                (snd (loopBody
                        (rejectedAt 1 (mkError "Backend Error" (CodeNum 500) ["backendError"]))
                        [Post (samplePost "A"); Post (samplePost "B"); Post (samplePost "C")]
                        0
                        (started [] (freshDisk [Post (samplePost "A"); Post (samplePost "B");
                                                Post (samplePost "C")]))))
                (rejected (samplePost "B")
                   (entered 1
                      (snd (loopBody
                              (rejectedAt 1 (mkError "Backend Error" (CodeNum 500)
                                               ["backendError"]))
                              [Post (samplePost "A"); Post (samplePost "B");
                               Post (samplePost "C")]
                              0
                              (started [] (freshDisk [Post (samplePost "A");
                                                      Post (samplePost "B");
                                                      Post (samplePost "C")]))))))
                (mkError "Backend Error" (CodeNum 500) ["backendError"])
                eq_refl ltac:(vm_compute; reflexivity) eq_refl)
      as (_ & Hprog & _ & _ & Hnext & _).
    split; [|exact Hnext].
    rewrite Hprog. vm_compute. reflexivity. }
  vm_compute. repeat split; reflexivity.
Defined.

Section Scenarios.

Variable blogger_listed : list string.

Lemma at_index_lt postsData i entry :
  at_index postsData i = Some entry -> 0 <= i < Z.of_nat (length postsData).
Proof.
  unfold at_index. destruct (i <? 0) eqn:H0; [discriminate|]. intros H.
  apply lookup_lt_Some in H. lia.
Qed.

(** A service that always answers with an error that
    [isRateLimitError] accepts uses up the whole retry budget. *)
Lemma retry_always_rejected error post w :
  unknown post w ->
  isRateLimitError error = true ->
  postToBloggerWithRetry (alwaysRejected error) post 1 w =
  (Throw (rateLimitExhausted error 5),
   set_trace (trace w ++
              [EInsert (bodyOf post); ESleep (wait error 1);
               EInsert (bodyOf post); ESleep (wait error 2);
               EInsert (bodyOf post); ESleep (wait error 3);
               EInsert (bodyOf post); ESleep (wait error 4);
               EInsert (bodyOf post)]) w).
Proof.
  intros Hu Hr.
  rewrite (retry_again _ _ 1 _ error) by (try reflexivity; assumption).
  rewrite (retry_again _ _ (1 + 1) _ error) by (try reflexivity; assumption).
  rewrite (retry_again _ _ (1 + 1 + 1) _ error) by (try reflexivity; assumption).
  rewrite (retry_again _ _ (1 + 1 + 1 + 1) _ error) by (try reflexivity; assumption).
  rewrite (retry_exhausted _ _ (1 + 1 + 1 + 1 + 1) _ error)
    by (try reflexivity; try assumption; unfold RATE_LIMIT.MAX_RETRIES; lia).
  unfold rejected. cbn. rewrite <- !app_assoc. reflexivity.
Qed.

Lemma insertCalls_paced postsData i w :
  insertCalls (trace (paced postsData i w)) = insertCalls (trace w).
Proof.
  unfold paced. destruct (i <? _); [|reflexivity].
  cbn [trace set_trace]. rewrite insertCalls_app. cbn. lia.
Qed.

Lemma insertCalls_advanced postsData i w :
  insertCalls (trace (advanced postsData i w)) = insertCalls (trace w).
Proof.
  unfold advanced. destruct (_ || _); [|reflexivity].
  cbn [trace]. rewrite insertCalls_app. cbn. lia.
Qed.

End Scenarios.

(** C10. An element of [posts.json] without a string title makes line
    281 throw before the [try] block of its iteration: the iteration and
    the loop end with the TypeError in an unchanged world (no failed
    entry, nothing persisted, no later item entered).  A rejected
    [postToBlogger()] is handled by the top-level handler, which writes a
    report whose reason starts with "Fatal error: " and exits with
    code 1; so does the run whose first item is such an element. *)
Theorem untitled_entry_aborts (blogger_insert : nat -> RequestBody -> InsertResult)
    (blogger_listed : list string) (postsData : list Entry) (i : Z) :
  at_index postsData i = Some Untitled \/ at_index postsData i = Some NonStringTitle ->
  exists err,
    (forall w, loopBody blogger_insert postsData i w = (Throw err, w)) /\
    (forall w, forLoop blogger_insert postsData i w = (Throw err, w)) /\
    (forall w0 w err',
       postToBlogger blogger_insert blogger_listed w0 = (Throw err', w) ->
       script blogger_insert blogger_listed w0 = (Exit 1, crashed err' w) /\
       reports (disk (crashed err' w)) =
         reports (disk w) ++
         [reportOf (successCountOf (default (mkProgress (-1) []) (progress_json (disk w))))
                   (failed (default (mkProgress (-1) []) (progress_json (disk w))))
                   (fatalReason err') w] /\
       progress_json (disk (crashed err' w)) = progress_json (disk w)) /\
    (forall d,
       default [] (posts_json d) = postsData ->
       lastProcessed (default (mkProgress (-1) []) (progress_json d)) + 1 = i ->
       let run := script blogger_insert blogger_listed (boot d) in
       exitCode run = Some 1 /\
       itemsOf (trace (snd run)) = [] /\
       insertCalls (trace (snd run)) = 0%nat /\
       progress_json (disk (snd run)) = progress_json d /\
       exists rep,
         reports (disk (snd run)) = reports d ++ [rep] /\
         terminationReason rep = fatalReason err /\
         Str.startsWith "Fatal error: " (terminationReason rep) = true).
Proof.
  intros Hp.
  assert (Hi : i < Z.of_nat (length postsData)).
  { destruct Hp as [Hp|Hp]; apply at_index_lt in Hp; lia. }
  assert (exists err, forall w, loopBody blogger_insert postsData i w = (Throw err, w))
    as [err Hb].
  { destruct Hp as [Hp|Hp].
    - exists typeError_title_undefined. intros w. apply loopBody_untitled. exact Hp.
    - exists typeError_not_a_function. intros w. apply loopBody_non_string. exact Hp. }
  assert (Hl : forall w, forLoop blogger_insert postsData i w = (Throw err, w)).
  { intros w. rewrite forLoop_step by assumption. rewrite Hb. reflexivity. }
  exists err. split; [exact Hb|]. split; [exact Hl|]. split.
  - intros w0 w err' Ht. unfold script, try_catch. rewrite Ht.
    rewrite fatalHandler_run. repeat split.
  - intros d Hposts Hcur. cbv zeta. rewrite script_run. cbv zeta.
    rewrite Hposts, Hcur, Hl. cbn [fst snd exitCode].
    destruct (started_trace blogger_listed d) as (Hi0 & _ & Hc0).
    destruct (started_disk blogger_listed d) as (_ & Hpj & _ & Hrep).
    split; [reflexivity|].
    unfold crashed. rewrite reported_trace, itemsOf_app, insertCalls_app, Hi0, Hc0.
    cbn [reported disk write_file progress_json reports]. rewrite Hpj, Hrep.
    split; [reflexivity|]. split; [reflexivity|]. split; [reflexivity|].
    eexists. split; [reflexivity|]. split; reflexivity.
Qed.

Lemma untitled_entry_aborts_witness :
  let postsData := [Post (samplePost "A"); Untitled; Post (samplePost "C")] in
  let run := script alwaysInserted [] (boot (freshDisk postsData)) in
  (exists err, forall w, forLoop alwaysInserted postsData 1 w = (Throw err, w)) /\
  exitCode run = Some 1 /\
  itemsOf (trace (snd run)) = [0] /\
  posted_ids_json (disk (snd run)) = Some ["A"] /\
  progress_json (disk (snd run)) = None /\
  List.map terminationReason (reports (disk (snd run))) =
    ["Fatal error: Cannot read properties of undefined (reading 'substring') (code: undefined)"].
Proof.
  cbv zeta. split.
  { destruct (untitled_entry_aborts alwaysInserted []
                [Post (samplePost "A"); Untitled; Post (samplePost "C")] 1
                (or_introl eq_refl)) as (err & _ & Hl & _).
    exists err. exact Hl. }
  vm_compute. repeat split; reflexivity.
Defined.

(** C1. For a post whose title is in [postedIds] or in [existingTitles],
    [postToBloggerWithRetry] returns the skipped outcome in an unchanged
    world: no insert call, no change of a set or of a file.  A run on a
    single post whose title is already in [posted_ids.json] makes no
    insert call and exits with code 0. *)
Theorem skip_known_title (blogger_insert : nat -> RequestBody -> InsertResult)
    (blogger_listed : list string) :
  (forall postData attempt w,
     title postData ∈ postedIds w \/ title postData ∈ existingTitles w ->
     postToBloggerWithRetry blogger_insert postData attempt w = (Ret Skipped, w)) /\
  (forall d post ids,
     posts_json d = Some [Post post] ->
     posted_ids_json d = Some ids ->
     title post ∈ ids ->
     -1 <= lastProcessed (default (mkProgress (-1) []) (progress_json d)) ->
     let run := script blogger_insert blogger_listed (boot d) in
     exitCode run = Some 0 /\ insertCalls (trace (snd run)) = 0%nat).
Proof.
  assert (Hskip : forall postData attempt w,
            title postData ∈ postedIds w \/ title postData ∈ existingTitles w ->
            postToBloggerWithRetry blogger_insert postData attempt w = (Ret Skipped, w)).
  { intros postData attempt w H. apply retry_known. apply orb_true_iff.
    destruct H as [H|H]; [left|right]; apply JsSetFacts.has_true; exact H. }
  split; [exact Hskip|].
  intros d post ids Hposts Hids Hin Hcur. cbv zeta.
  rewrite script_run. cbv zeta. rewrite Hposts. cbn [default length].
  set (cursor := lastProcessed _) in *.
  set (w0 := started blogger_listed d).
  assert (Hc0 : insertCalls (trace w0) = 0%nat) by apply started_trace.
  assert (Hk : title post ∈ postedIds w0).
  { unfold w0, started. rewrite Hids.
    destruct (0 <? _)%nat; cbn; apply JsSetFacts.elem_of_of_array; exact Hin. }
  assert (Hfin : forall wl, insertCalls (trace wl) = 0%nat ->
            exitCode (Exit (A:=unit) 0, finalized wl) = Some 0 /\
            insertCalls (trace (snd (Exit (A:=unit) 0, finalized wl))) = 0%nat).
  { intros wl Hwl. split; [reflexivity|]. cbn [snd].
    destruct (finalized_trace wl) as (evf & -> & _ & _ & Hcf).
    rewrite insertCalls_app. lia. }
  destruct (Z.eq_dec cursor (-1)) as [Heq|Hne].
  - rewrite Heq. change (-1 + 1) with 0.
    rewrite forLoop_step by (cbn; lia).
    rewrite (loopBody_returned _ [Post post] 0 post w0 Skipped (entered 0 w0));
      [|reflexivity|apply Hskip; left; exact Hk].
    rewrite forLoop_ge by (cbn; lia).
    apply Hfin. rewrite insertCalls_paced, insertCalls_advanced.
    cbn [entered set_trace trace]. rewrite insertCalls_app, Hc0. reflexivity.
  - rewrite forLoop_ge by (cbn; lia). apply Hfin. exact Hc0.
Qed.

Lemma skip_known_title_witness :
  let d := mkDisk (Some [Post (samplePost "X")]) (Some ["X"]) None None None [] in
  let w := started [] d in
  let run := script alwaysInserted [] (boot d) in
  postToBloggerWithRetry alwaysInserted (samplePost "X") 1 w = (Ret Skipped, w) /\
  exitCode run = Some 0 /\ insertCalls (trace (snd run)) = 0%nat.
Proof.
  cbv zeta. split.
  - apply (proj1 (skip_known_title alwaysInserted [])). left. vm_compute.
    apply list_elem_of_singleton. reflexivity.
  - assert (Hin : title (samplePost "X") ∈ ["X"])
      by (apply list_elem_of_singleton; reflexivity).
    assert (Hcur : -1 <= lastProcessed (default (mkProgress (-1) []) None))
      by (cbn; lia).
    exact (proj2 (skip_known_title alwaysInserted [])
             (mkDisk (Some [Post (samplePost "X")]) (Some ["X"]) None None None [])
             (samplePost "X") ["X"] eq_refl eq_refl Hin Hcur).
Defined.

(** C2. When attempt MAX_RETRIES = 5 of a post fails with an error that
    [isRateLimitError] accepts, the executor throws the error "Rate limit
    exceeded after 5 attempts: ...".  The driver ends the job on an error
    with that text: the loop stops with exit code 1 after a report whose
    reason contains "rate limit" was written.  So a run against a service
    that always answers with such an error makes exactly 5 insert calls
    for the first item it enters, enters no other item, writes that
    report and exits with code 1. *)
Theorem rate_limit_exhaustion (blogger_listed : list string) :
  (forall blogger_insert postData w error,
     unknown postData w ->
     blogger_insert (insertCalls (trace w)) (bodyOf postData) = Rejected error ->
     isRateLimitError error = true ->
     postToBloggerWithRetry blogger_insert postData RATE_LIMIT.MAX_RETRIES w =
       (Throw (rateLimitExhausted error RATE_LIMIT.MAX_RETRIES), rejected postData w) /\
     Str.includes "Rate limit exceeded"
       (message (rateLimitExhausted error RATE_LIMIT.MAX_RETRIES)) = true) /\
  (forall blogger_insert postsData i post w e w2,
     at_index postsData i = Some (Post post) ->
     postToBloggerWithRetry blogger_insert post 1 (entered i w) = (Throw e, w2) ->
     Str.includes "Rate limit exceeded" (message e) = true ->
     forLoop blogger_insert postsData i w = (Exit 1, aborted i post e w2) /\
     exists rep,
       reports (disk (aborted i post e w2)) = reports (disk w2) ++ [rep] /\
       Str.includes "rate limit" (terminationReason rep) = true) /\
  (forall d post error,
     let postsData := default [] (posts_json d) in
     let cursor := lastProcessed (default (mkProgress (-1) []) (progress_json d)) in
     at_index postsData (cursor + 1) = Some (Post post) ->
     unknown post (started blogger_listed d) ->
     isRateLimitError error = true ->
     let run := script (alwaysRejected error) blogger_listed (boot d) in
     exitCode run = Some 1 /\
     insertCalls (trace (snd run)) = 5%nat /\
     itemsOf (trace (snd run)) = [cursor + 1] /\
     exists rep,
       reports (disk (snd run)) = reports d ++ [rep] /\
       Str.includes "rate limit" (terminationReason rep) = true).
Proof.
  assert (Habort : forall blogger_insert postsData i post w e w2,
     at_index postsData i = Some (Post post) ->
     postToBloggerWithRetry blogger_insert post 1 (entered i w) = (Throw e, w2) ->
     Str.includes "Rate limit exceeded" (message e) = true ->
     forLoop blogger_insert postsData i w = (Exit 1, aborted i post e w2)).
  { intros blogger_insert postsData i post w e w2 Hp Hr Hm.
    rewrite forLoop_step by (apply at_index_lt in Hp; lia).
    rewrite (loopBody_aborted _ _ _ post w e w2) by assumption. reflexivity. }
  split; [|split].
  - intros blogger_insert postData w error Hu Hi Hr. split.
    + apply retry_exhausted; try assumption. lia.
    + reflexivity.
  - intros blogger_insert postsData i post w e w2 Hp Hr Hm.
    split; [apply Habort; assumption|].
    eexists. split; [reflexivity|]. reflexivity.
  - intros d post error. cbv zeta. intros Hp Hu Hr.
    rewrite script_run. cbv zeta.
    set (w0 := started blogger_listed d) in *.
    set (cursor := lastProcessed _) in *.
    assert (Hu1 : unknown post (entered (cursor + 1) w0)) by exact Hu.
    rewrite (Habort _ _ _ post w0 _ _ Hp (retry_always_rejected error post _ Hu1 Hr) eq_refl).
    destruct (started_trace blogger_listed d) as (Hi0 & _ & Hc0).
    destruct (started_disk blogger_listed d) as (_ & _ & _ & Hrep).
    fold w0 in Hi0, Hc0, Hrep.
    cbn [fst snd exitCode]. split; [reflexivity|].
    unfold aborted. rewrite reported_trace.
    cbn [recorded trace set_trace entered].
    rewrite !insertCalls_app, !itemsOf_app, Hi0, Hc0.
    split; [reflexivity|]. split; [reflexivity|].
    cbn [reported recorded disk write_file reports set_trace entered]. rewrite Hrep.
    eexists. split; [reflexivity|]. reflexivity.
Qed.

Lemma rate_limit_exhaustion_witness :
  let quota := mkError "quotaExceeded" (CodeNum 403) ["quotaExceeded"] in
  let postsData := [Post (samplePost "A"); Post (samplePost "B")] in
  let d := freshDisk postsData in
  let w := started [] d in
  let run := script (alwaysRejected quota) [] (boot d) in
  let attempt := postToBloggerWithRetry (alwaysRejected quota) (samplePost "A") 1 (entered 0 w) in
  postToBloggerWithRetry (alwaysRejected quota) (samplePost "A") RATE_LIMIT.MAX_RETRIES w =
    (Throw (newError "Rate limit exceeded after 5 attempts: quotaExceeded (code: 403)"),
     rejected (samplePost "A") w) /\
  forLoop (alwaysRejected quota) postsData 0 w =
    (Exit 1, aborted 0 (samplePost "A") (rateLimitExhausted quota 5) (snd attempt)) /\
  exitCode run = Some 1 /\
  insertCalls (trace (snd run)) = 5%nat /\
  itemsOf (trace (snd run)) = [0] /\
  sleepsOf (trace (snd run)) = [3600000; 3600000; 3600000; 3600000] /\
  List.map terminationReason (reports (disk (snd run))) =
    ["Terminated due to rate limit: Rate limit exceeded after 5 attempts: quotaExceeded (code: 403)"].
Proof.
  cbv zeta.
  pose proof (rate_limit_exhaustion []) as (HA & HB & HC).
  split.
  { exact (proj1 (HA (alwaysRejected (mkError "quotaExceeded" (CodeNum 403) ["quotaExceeded"]))
                    (samplePost "A")
                    (started [] (freshDisk [Post (samplePost "A"); Post (samplePost "B")]))
                    (mkError "quotaExceeded" (CodeNum 403) ["quotaExceeded"])
                    eq_refl eq_refl eq_refl)). }
  split.
  { refine (proj1 (HB (alwaysRejected (mkError "quotaExceeded" (CodeNum 403) ["quotaExceeded"]))
                     [Post (samplePost "A"); Post (samplePost "B")] 0 (samplePost "A")
                     (started [] (freshDisk [Post (samplePost "A"); Post (samplePost "B")]))
                     (rateLimitExhausted (mkError "quotaExceeded" (CodeNum 403) ["quotaExceeded"]) 5)
                     _ eq_refl _ eq_refl)).
    vm_compute. reflexivity. }
  destruct (HC (freshDisk [Post (samplePost "A"); Post (samplePost "B")])
              (samplePost "A")
              (mkError "quotaExceeded" (CodeNum 403) ["quotaExceeded"])
              eq_refl eq_refl eq_refl) as (H1 & H2 & H3 & _).
  split; [exact H1|]. split; [exact H2|]. split; [exact H3|].
  vm_compute. split; reflexivity.
Defined.


(** * Further properties of the current script *)

(** ** The retry executor, end to end *)

Section RetryShape.

Variable blogger_insert : nat -> RequestBody -> InsertResult.

Lemma retried_nil postData w : retried postData [] w = w.
Proof. destruct w. unfold retried, set_trace. cbn. rewrite app_nil_r. reflexivity. Qed.

Lemma retried_cons postData m ms w :
  retried postData ms
    (set_trace (trace w ++ [EInsert (bodyOf postData); ESleep m]) w) =
  retried postData (m :: ms) w.
Proof. unfold retried, set_trace. cbn. rewrite <- app_assoc. reflexivity. Qed.

Lemma wait_range error attempt :
  1 <= attempt < RATE_LIMIT.MAX_RETRIES -> 10000 <= wait error attempt <= 3600000.
Proof.
  unfold RATE_LIMIT.MAX_RETRIES, wait, RATE_LIMIT.QUOTA_DELAY, RATE_LIMIT.BASE_DELAY.
  intros H. destruct (_ || _); [lia|]. destruct (code_is error 429); [lia|].
  assert (Ha : attempt = 1 \/ attempt = 2 \/ attempt = 3 \/ attempt = 4) by lia.
  destruct Ha as [->|[->|[->| ->]]]; cbn; lia.
Qed.

(** The shape of every call for a title that is in neither set: some
    rejected attempts with their waits, then one last insert call that
    is either accepted or rejected for good. *)
Lemma retry_shape postData (n : nat) :
  forall attempt w,
    Z.to_nat (RATE_LIMIT.MAX_RETRIES - attempt) = n ->
    1 <= attempt ->
    unknown postData w ->
    exists ms,
      (length ms <= n)%nat /\
      Forall (fun m => 10000 <= m <= 3600000) ms /\
      ((exists d, postToBloggerWithRetry blogger_insert postData attempt w =
                  (Ret (Success d), published postData (retried postData ms w))) \/
       (exists e, postToBloggerWithRetry blogger_insert postData attempt w =
                  (Throw e, rejected postData (retried postData ms w)) /\
                  (isRateLimitError e = false \/
                   exists e' a, isRateLimitError e' = true /\
                                RATE_LIMIT.MAX_RETRIES <= a /\
                                e = rateLimitExhausted e' a))).
Proof.
  induction n as [n IH] using lt_wf_ind. intros attempt w Hn H1 Hu.
  destruct (blogger_insert (insertCalls (trace w)) (bodyOf postData)) as [d|e] eqn:Hi.
  { exists []. rewrite retried_nil. split; [cbn; lia|]. split; [constructor|].
    left. exists d. apply retry_inserted; assumption. }
  destruct (isRateLimitError e) eqn:Hr.
  2:{ exists []. rewrite retried_nil. split; [cbn; lia|]. split; [constructor|].
      right. exists e. split; [apply retry_fatal; assumption|]. left. exact Hr. }
  destruct (Z_lt_le_dec attempt RATE_LIMIT.MAX_RETRIES) as [Ha|Ha].
  2:{ exists []. rewrite retried_nil. split; [cbn; lia|]. split; [constructor|].
      right. exists (rateLimitExhausted e attempt).
      split; [apply retry_exhausted; assumption|]. right. eauto. }
  rewrite (retry_again _ _ _ _ e) by assumption.
  set (w1 := set_trace _ w).
  assert (Hlt : (Z.to_nat (RATE_LIMIT.MAX_RETRIES - (attempt + 1)) < n)%nat)
    by (unfold RATE_LIMIT.MAX_RETRIES in *; lia).
  destruct (IH _ Hlt (attempt + 1) w1 eq_refl ltac:(lia) Hu) as (ms & Hlen & Hms & Hres).
  exists (wait e attempt :: ms). unfold w1 in Hres. rewrite retried_cons in Hres.
  split; [cbn; lia|]. split; [|exact Hres].
  constructor; [|exact Hms]. apply wait_range. lia.
Qed.

Lemma sleepsOf_attempts postData ms tl :
  sleepsOf (flat_map (fun m => [EInsert (bodyOf postData); ESleep m]) ms ++ tl) =
  ms ++ sleepsOf tl.
Proof. induction ms as [|m ms IH]; cbn; [reflexivity|]. rewrite IH. reflexivity. Qed.

Lemma insertCalls_attempts postData ms tl :
  insertCalls (flat_map (fun m => [EInsert (bodyOf postData); ESleep m]) ms ++ tl) =
  (length ms + insertCalls tl)%nat.
Proof.
  induction ms as [|m ms IH]; [reflexivity|].
  cbn [flat_map]. rewrite <- !app_assoc. cbn [app length].
  change (insertCalls (EInsert (bodyOf postData) :: ESleep m :: ?l))
    with (S (insertCalls l)).
  rewrite IH. reflexivity.
Qed.

End RetryShape.

(** X1. For a title in neither set, a call of the executor from attempt 1
    waits at most 4 times, each wait between 10 seconds and one hour, and
    issues exactly one insert call more than it waits. *)
Theorem retry_waits_bounded (blogger_insert : nat -> RequestBody -> InsertResult)
    (postData : PostData) (w : World) :
  unknown postData w ->
  exists evs,
    trace (snd (postToBloggerWithRetry blogger_insert postData 1 w)) = trace w ++ evs /\
    (length (sleepsOf evs) <= 4)%nat /\
    Forall (fun m => 10000 <= m <= 3600000) (sleepsOf evs) /\
    insertCalls evs = S (length (sleepsOf evs)).
Proof.
  intros Hu.
  destruct (retry_shape blogger_insert postData _ 1 w eq_refl ltac:(lia) Hu)
    as (ms & Hlen & Hms & Hres).
  pose proof (sleepsOf_attempts postData ms) as Hs.
  pose proof (insertCalls_attempts postData ms) as Hc.
  destruct Hres as [(d & ->)|(e & -> & _)]; cbn [snd published rejected retried set_trace trace].
  - eexists. rewrite <- app_assoc. split; [reflexivity|].
    rewrite Hs, Hc. cbn. rewrite app_nil_r.
    change (Z.to_nat (RATE_LIMIT.MAX_RETRIES - 1)) with 4%nat in Hlen.
    split; [lia|]. split; [exact Hms|]. lia.
  - eexists. rewrite <- app_assoc. split; [reflexivity|].
    rewrite Hs, Hc. cbn. rewrite app_nil_r.
    change (Z.to_nat (RATE_LIMIT.MAX_RETRIES - 1)) with 4%nat in Hlen.
    split; [lia|]. split; [exact Hms|]. lia.
Qed.

Lemma retry_waits_bounded_witness :
  let error := mkError "too many requests" CodeUndefined [] in
  let r := postToBloggerWithRetry (alwaysRejected error) (samplePost "X") 1 (boot emptyDisk) in
  sleepsOf (trace (snd r)) = [10000; 20000; 40000; 80000] /\
  exists evs,
    trace (snd r) = trace (boot emptyDisk) ++ evs /\
    (length (sleepsOf evs) <= 4)%nat /\
    Forall (fun m => 10000 <= m <= 3600000) (sleepsOf evs) /\
    insertCalls evs = S (length (sleepsOf evs)).
Proof.
  cbv zeta. split; [vm_compute; reflexivity|].
  exact (retry_waits_bounded
           (alwaysRejected (mkError "too many requests" CodeUndefined []))
           (samplePost "X") (boot emptyDisk) eq_refl).
Defined.

(** ** Iterations and the loop, case by case *)

Section LoopCases.

Variable blogger_insert : nat -> RequestBody -> InsertResult.

(** An iteration either throws at lines 280-281, or skips a known
    title, or runs the attempts of an unknown title to one of their
    three ends. *)
Lemma loopBody_cases postsData i w :
  (exists e, loopBody blogger_insert postsData i w = (Throw e, w)) \/
  (exists post,
     at_index postsData i = Some (Post post) /\
     ((JsSet.has (postedIds w) (title post) || JsSet.has (existingTitles w) (title post) = true /\
       loopBody blogger_insert postsData i w =
         (Ret tt, paced postsData i (advanced postsData i (entered i w)))) \/
      (unknown post w /\
       exists ms,
         (length ms <= 4)%nat /\
         Forall (fun m => 10000 <= m <= 3600000) ms /\
         let w1 := retried post ms (entered i w) in
         (loopBody blogger_insert postsData i w =
            (Ret tt, paced postsData i (advanced postsData i (published post w1))) \/
          (exists e, Str.includes "Rate limit exceeded" (message e) = false /\
            loopBody blogger_insert postsData i w =
              (Ret tt, paced postsData i (recorded i post e (rejected post w1)))) \/
          (exists e, Str.includes "Rate limit exceeded" (message e) = true /\
            loopBody blogger_insert postsData i w =
              (Exit 1, aborted i post e (rejected post w1))))))).
Proof.
  destruct (at_index postsData i) as [[post| |]|] eqn:Hp.
  2:{ left. eexists. apply loopBody_untitled. exact Hp. }
  2:{ left. eexists. apply loopBody_non_string. exact Hp. }
  2:{ left. eexists. apply loopBody_undefined. exact Hp. }
  right. exists post. split; [reflexivity|].
  destruct (JsSet.has (postedIds w) (title post) ||
            JsSet.has (existingTitles w) (title post)) eqn:Hk.
  - left. split; [reflexivity|].
    apply (loopBody_returned _ _ _ post w Skipped). { exact Hp. }
    apply retry_known. exact Hk.
  - right. split; [exact Hk|].
    assert (Hu : unknown post (entered i w)) by exact Hk.
    destruct (retry_shape blogger_insert post _ 1 (entered i w) eq_refl ltac:(lia) Hu)
      as (ms & Hlen & Hms & Hres).
    exists ms. split; [exact Hlen|]. split; [exact Hms|]. cbv zeta.
    destruct Hres as [(d & Hr)|(e & Hr & _)].
    + left. apply (loopBody_returned _ _ _ post w (Success d)); assumption.
    + destruct (Str.includes "Rate limit exceeded" (message e)) eqn:Hm.
      * right. right. exists e. split; [exact Hm|].
        apply loopBody_aborted; assumption.
      * right. left. exists e. split; [exact Hm|].
        apply loopBody_failed; assumption.
Qed.

(** Induction along the loop: what holds on entry at [i], is kept by
    every iteration that returns and gives [Q] when the loop stops,
    gives [Q] for the whole loop. *)
Lemma forLoop_rule postsData (I : Z -> World -> Prop) (Q : Res unit -> World -> Prop) :
  (forall i w, Z.of_nat (length postsData) <= i -> I i w -> Q (Ret tt) w) ->
  (forall i w, i < Z.of_nat (length postsData) -> I i w ->
     match loopBody blogger_insert postsData i w with
     | (Ret _, w1) => I (i + 1) w1
     | (Throw e, w1) => Q (Throw e) w1
     | (Exit c, w1) => Q (Exit c) w1
     end) ->
  forall i w, I i w ->
    Q (fst (forLoop blogger_insert postsData i w))
      (snd (forLoop blogger_insert postsData i w)).
Proof.
  intros Hbase Hstep i w.
  remember (Z.to_nat (Z.of_nat (length postsData) - i)) as n eqn:Hn.
  revert i w Hn. induction n as [|n IH]; intros i w Hn Hi.
  - rewrite forLoop_ge by lia. apply (Hbase i); [lia|exact Hi].
  - rewrite forLoop_step by lia.
    specialize (Hstep i w ltac:(lia) Hi).
    destruct (loopBody blogger_insert postsData i w) as [[[]|e|c] w1]; cbn [fst snd].
    + apply IH; [lia|exact Hstep].
    + exact Hstep.
    + exact Hstep.
Qed.

End LoopCases.

(** ** The title sets and their files *)

Section Stores.

Variable blogger_insert : nat -> RequestBody -> InsertResult.
Variable blogger_listed : list string.

Lemma stores_paced postsData i w : stores (paced postsData i w) = stores w.
Proof. unfold paced. destruct (i <? _); reflexivity. Qed.

Lemma stores_advanced postsData i w : stores (advanced postsData i w) = stores w.
Proof. unfold advanced. destruct (_ || _); reflexivity. Qed.

Lemma stores_finalized w : stores (finalized w) = stores w.
Proof. unfold finalized. destruct (0 <? _)%nat; reflexivity. Qed.

(** An iteration leaves the sets and their files alone, or publishes
    one title that was in neither set. *)
Lemma loopBody_stores postsData i w :
  stores (snd (loopBody blogger_insert postsData i w)) = stores w \/
  exists post w0,
    stores w0 = stores w /\ unknown post w0 /\
    stores (snd (loopBody blogger_insert postsData i w)) = stores (published post w0).
Proof.
  destruct (loopBody_cases blogger_insert postsData i w)
    as [(e & ->)|(post & _ & [(_ & ->)|(Hu & ms & _ & _ & H)])]; cbn [snd].
  - left. reflexivity.
  - left. rewrite stores_paced, stores_advanced. reflexivity.
  - cbv zeta in H. destruct H as [->|[(e & _ & ->)|(e & _ & ->)]]; cbn [snd].
    + right. exists post, (retried post ms (entered i w)).
      split; [reflexivity|]. split; [exact Hu|].
      rewrite stores_paced, stores_advanced. reflexivity.
    + left. rewrite stores_paced. reflexivity.
    + left. reflexivity.
Qed.

(** A property of the sets and their files that publishing an unknown
    title keeps is kept by the loop, and by the whole run. *)
Lemma forLoop_stores (I : JsSet.t * JsSet.t * option (list string) * option (list string) -> Prop)
    postsData :
  (forall post w, unknown post w -> I (stores w) -> I (stores (published post w))) ->
  forall i w, I (stores w) -> I (stores (snd (forLoop blogger_insert postsData i w))).
Proof.
  intros Hpub i w Hw.
  apply (forLoop_rule blogger_insert postsData (fun _ w => I (stores w))
           (fun _ w => I (stores w))); [auto| |exact Hw].
  clear i w Hw. intros i w _ Hw.
  assert (H : I (stores (snd (loopBody blogger_insert postsData i w)))).
  { destruct (loopBody_stores postsData i w) as [->|(post & w0 & H0 & Hu & ->)];
      [exact Hw|]. apply Hpub; [exact Hu|]. rewrite H0. exact Hw. }
  destruct (loopBody blogger_insert postsData i w) as [[[]|e|c] w1]; exact H.
Qed.

Lemma script_stores (I : JsSet.t * JsSet.t * option (list string) * option (list string) -> Prop) d :
  (forall post w, unknown post w -> I (stores w) -> I (stores (published post w))) ->
  I (stores (started blogger_listed d)) ->
  I (stores (snd (script blogger_insert blogger_listed (boot d)))).
Proof.
  intros Hpub H0. rewrite script_run. cbv zeta.
  pose proof (forLoop_stores I (default [] (posts_json d)) Hpub
                (lastProcessed (default (mkProgress (-1) []) (progress_json d)) + 1)
                _ H0) as H.
  destruct (forLoop _ _ _ _) as [[[]|e|c] wl]; cbn [snd] in *.
  - rewrite stores_finalized. exact H.
  - exact H.
  - exact H.
Qed.

Lemma NoDup_add (s : JsSet.t) (x : string) : NoDup s -> NoDup (JsSet.add s x).
Proof.
  intros H. unfold JsSet.add. destruct (JsSet.has s x) eqn:E; [exact H|].
  apply JsSetFacts.has_false in E. apply NoDup_app. split; [exact H|].
  split; [|apply NoDup_singleton].
  intros y Hy Hx. apply list_elem_of_singleton in Hx. subst. contradiction.
Qed.

Lemma NoDup_fold_add (l : list string) (acc : JsSet.t) :
  NoDup acc -> NoDup (fold_left JsSet.add l acc).
Proof.
  revert acc. induction l as [|x l IH]; intros acc H; cbn; [exact H|].
  apply IH, NoDup_add, H.
Qed.

Lemma NoDup_of_array (l : list string) : NoDup (JsSet.of_array l).
Proof. apply NoDup_fold_add. constructor. Qed.

Lemma fold_add_fresh (l : list string) (acc : JsSet.t) :
  NoDup (acc ++ l) -> fold_left JsSet.add l acc = acc ++ l.
Proof.
  revert acc. induction l as [|x l IH]; intros acc H; cbn.
  - rewrite app_nil_r. reflexivity.
  - assert (Hx : JsSet.has acc x = false).
    { apply JsSetFacts.has_false. apply NoDup_app in H as (_ & H & _).
      intros Hin. apply (H x Hin). left. }
    unfold JsSet.add at 2. rewrite Hx. rewrite IH.
    + rewrite <- app_assoc. reflexivity.
    + rewrite <- app_assoc. exact H.
Qed.

Lemma of_array_NoDup (s : JsSet.t) : NoDup s -> JsSet.of_array s = s.
Proof. intros H. unfold JsSet.of_array. rewrite fold_add_fresh; [reflexivity|exact H]. Qed.

Lemma mirrored_published post w :
  mirrored (stores w) -> mirrored (stores (published post w)).
Proof.
  unfold mirrored, stores. cbn. intros (H1 & H2 & _ & _).
  split; [apply NoDup_add, H1|]. split; [apply NoDup_add, H2|]. split; reflexivity.
Qed.

Lemma mirrored_started d : mirrored (stores (started blogger_listed d)).
Proof.
  unfold mirrored, stores, started, fetchedTitles.
  destruct (0 <? _)%nat; cbn.
  - split; [apply NoDup_of_array|]. split; [apply NoDup_of_array|].
    split; intros t; apply JsSetFacts.elem_of_of_array.
  - split; [apply NoDup_of_array|]. split; [apply NoDup_of_array|].
    split; intros t; [apply JsSetFacts.elem_of_of_array|reflexivity].
Qed.

Lemma started_keeps d :
  (forall t, t ∈ default [] (posted_ids_json d) ->
             t ∈ postedIds (started blogger_listed d)) /\
  (forall t, t ∈ default [] (existing_titles_json d) ->
             t ∈ existingTitles (started blogger_listed d)).
Proof.
  unfold started, fetchedTitles.
  destruct (0 <? length (default [] (existing_titles_json d)))%nat eqn:E;
    cbn [postedIds existingTitles]; split; intros t Ht;
    try (apply JsSetFacts.elem_of_of_array; exact Ht).
  destruct (default [] (existing_titles_json d)); [|discriminate].
  apply elem_of_nil in Ht as [].
Qed.

End Stores.

(** X2. Saving a set and loading it back gives the same set:
    [savePostedIds] followed by [loadPostedIds] returns the set saved,
    for every set the script can hold (a set built from an array lists
    each of its titles once). *)
Theorem posted_ids_round_trip (l : list string) (w : World) :
  let s := JsSet.of_array l in
  NoDup s /\
  (forall t, t ∈ s <-> t ∈ l) /\
  fst (bind (savePostedIds s) (fun _ => loadPostedIds) w) = Ret s /\
  posted_ids_json (disk (snd (bind (savePostedIds s) (fun _ => loadPostedIds) w))) = Some s.
Proof.
  cbv zeta. split; [apply NoDup_of_array|].
  split; [intros t; apply JsSetFacts.elem_of_of_array|].
  unfold savePostedIds, loadPostedIds, loadJsonFile, saveJsonFile, emit, modify, bind, get, ret.
  cbn -[JsSet.of_array]. rewrite of_array_NoDup by apply NoDup_of_array. split; reflexivity.
Qed.

(** X3. A published title is never published again.  When the executor
    returns a success for a post, the title is in both sets, both files
    hold the sets, and every later call for that post, whatever the
    service and the attempt number, is skipped without an insert call. *)
Theorem publish_then_skip (blogger_insert : nat -> RequestBody -> InsertResult)
    (postData : PostData) (w w' : World) (d : InsertData) :
  postToBloggerWithRetry blogger_insert postData 1 w = (Ret (Success d), w') ->
  title postData ∈ postedIds w' /\
  title postData ∈ existingTitles w' /\
  posted_ids_json (disk w') = Some (postedIds w') /\
  existing_titles_json (disk w') = Some (existingTitles w') /\
  forall blogger_insert2 attempt,
    postToBloggerWithRetry blogger_insert2 postData attempt w' = (Ret Skipped, w').
Proof.
  intros Hr.
  destruct (JsSet.has (postedIds w) (title postData) ||
            JsSet.has (existingTitles w) (title postData)) eqn:Hk.
  { rewrite retry_known in Hr by assumption. discriminate. }
  destruct (retry_shape blogger_insert postData _ 1 w eq_refl ltac:(lia) Hk)
    as (ms & _ & _ & [(d' & Hres)|(e & Hres & _)]); rewrite Hres in Hr; [|discriminate].
  injection Hr as _ <-.
  assert (Hin : title postData ∈ postedIds (published postData (retried postData ms w))).
  { cbn. apply JsSetFacts.elem_of_add. left. reflexivity. }
  split; [exact Hin|].
  split; [cbn; apply JsSetFacts.elem_of_add; left; reflexivity|].
  split; [reflexivity|]. split; [reflexivity|].
  intros blogger_insert2 attempt. apply retry_known.
  apply orb_true_iff. left. apply JsSetFacts.has_true. exact Hin.
Qed.

Lemma publish_then_skip_witness :
  let w := boot emptyDisk in
  let w' := published (samplePost "X") w in
  posted_ids_json (disk w') = Some ["X"] /\
  postToBloggerWithRetry (alwaysRejected (mkError "Backend Error" (CodeNum 500) []))
    (samplePost "X") 1 w' = (Ret Skipped, w').
Proof.
  cbv zeta.
  destruct (publish_then_skip alwaysInserted (samplePost "X") (boot emptyDisk)
              (published (samplePost "X") (boot emptyDisk)) sampleData
              ltac:(vm_compute; reflexivity)) as (_ & _ & _ & _ & H).
  split; [reflexivity|]. apply H.
Defined.

(** X4. Whatever the service answers and however the run ends,
    [posted_ids.json] and [existing_titles.json] end up holding exactly
    the titles of the two sets in memory, the sets list no title twice,
    and no title that [posted_ids.json] or [existing_titles.json] held
    before the run is lost. *)
Theorem files_mirror_sets (blogger_insert : nat -> RequestBody -> InsertResult)
    (blogger_listed : list string) (d : Disk) :
  let w := snd (script blogger_insert blogger_listed (boot d)) in
  NoDup (postedIds w) /\ NoDup (existingTitles w) /\
  (forall t, t ∈ postedIds w <-> t ∈ default [] (posted_ids_json (disk w))) /\
  (forall t, t ∈ existingTitles w <-> t ∈ default [] (existing_titles_json (disk w))) /\
  (forall t, t ∈ default [] (posted_ids_json d) ->
             t ∈ default [] (posted_ids_json (disk w))) /\
  (forall t, t ∈ default [] (existing_titles_json d) ->
             t ∈ default [] (existing_titles_json (disk w))).
Proof.
  cbv zeta.
  set (I := fun s : JsSet.t * JsSet.t * option (list string) * option (list string) =>
              mirrored s /\
              (forall t, t ∈ default [] (posted_ids_json d) -> t ∈ fst (fst (fst s))) /\
              (forall t, t ∈ default [] (existing_titles_json d) -> t ∈ snd (fst (fst s)))).
  assert (H : I (stores (snd (script blogger_insert blogger_listed (boot d))))).
  { apply script_stores.
    - intros post w Hu (Hm & Hp & He). split; [apply mirrored_published, Hm|].
      cbn. split; intros t Ht; apply JsSetFacts.elem_of_add; right; auto.
    - split; [apply mirrored_started|]. apply started_keeps. }
  destruct H as ((H1 & H2 & H3 & H4) & H5 & H6). cbn in H5, H6.
  split; [exact H1|]. split; [exact H2|]. split; [exact H3|]. split; [exact H4|].
  split; intros t Ht; [apply H3, H5, Ht|apply H4, H6, Ht].
Qed.

(** ** Errors that reach the driver, and the report of a run *)

(** X5. An error that [isRateLimitError] accepts never reaches the
    driver as it is: whatever the executor throws from attempt 1 for an
    unknown title is either an error that [isRateLimitError] rejects or
    carries the text "Rate limit exceeded" by which the driver ends the
    job. *)
Theorem accepted_error_ends_job (blogger_insert : nat -> RequestBody -> InsertResult)
    (postData : PostData) (w w' : World) (e : JsError) :
  postToBloggerWithRetry blogger_insert postData 1 w = (Throw e, w') ->
  isRateLimitError e = true ->
  Str.includes "Rate limit exceeded" (message e) = true.
Proof.
  intros Hr Ha.
  destruct (JsSet.has (postedIds w) (title postData) ||
            JsSet.has (existingTitles w) (title postData)) eqn:Hk.
  { rewrite retry_known in Hr by assumption. discriminate. }
  destruct (retry_shape blogger_insert postData _ 1 w eq_refl ltac:(lia) Hk)
    as (ms & _ & _ & [(d' & Hres)|(e0 & Hres & He)]); rewrite Hres in Hr; [discriminate|].
  injection Hr as <- _.
  destruct He as [He|(e' & a & _ & _ & ->)]; [congruence|]. reflexivity.
Qed.

Lemma accepted_error_ends_job_witness :
  let quota := mkError "quotaExceeded" (CodeNum 403) [] in
  let r := postToBloggerWithRetry (alwaysRejected quota) (samplePost "X") 1 (boot emptyDisk) in
  exists e, fst r = Throw e /\ isRateLimitError e = true /\
            Str.includes "Rate limit exceeded" (message e) = true.
Proof.
  cbv zeta.
  exists (rateLimitExhausted (mkError "quotaExceeded" (CodeNum 403) []) 5).
  assert (H1 : isRateLimitError
                 (rateLimitExhausted (mkError "quotaExceeded" (CodeNum 403) []) 5) = true)
    by reflexivity.
  split; [vm_compute; reflexivity|]. split; [exact H1|].
  refine (accepted_error_ends_job
            (alwaysRejected (mkError "quotaExceeded" (CodeNum 403) []))
            (samplePost "X") (boot emptyDisk) _ _ _ H1).
  vm_compute. reflexivity.
Defined.

Section Reports.

Variable blogger_insert : nat -> RequestBody -> InsertResult.
Variable blogger_listed : list string.




End Reports.


(** ** How much progress a stop can lose *)

Section Durable.

Variable blogger_insert : nat -> RequestBody -> InsertResult.
Variable blogger_listed : list string.

Lemma unsavedFrom_app n l1 l2 :
  unsavedFrom n (l1 ++ l2) = unsavedFrom (unsavedFrom n l1) l2.
Proof.
  revert n. induction l1 as [|[| | | |[]] l1 IH]; intros k; cbn; rewrite ?IH; reflexivity.
Qed.

Lemma unsavedFrom_attempts postData ms n :
  unsavedFrom n (flat_map (fun m => [EInsert (bodyOf postData); ESleep m]) ms) = n.
Proof. induction ms as [|m ms IH]; cbn; [reflexivity|exact IH]. Qed.

Lemma unsaved_retried postData ms i w :
  unsavedItems (trace (retried postData ms (entered i w))) = S (unsavedItems (trace w)).
Proof.
  unfold unsavedItems. cbn [retried entered set_trace trace].
  rewrite !unsavedFrom_app, unsavedFrom_attempts. reflexivity.
Qed.

Lemma durable_paced postsData i w : durable w -> durable (paced postsData i w).
Proof.
  unfold paced. destruct (i <? _); [|auto]. intros [H1 H2 H3 H4 H5].
  split; cbn; try assumption.
  unfold unsavedItems in *. rewrite unsavedFrom_app. cbn. exact H2.
Qed.

(** Lines 289-295 keep the invariant, whatever the attempt appended
    after the item line, as long as it left progress alone. *)
Lemma durable_advanced postsData i w w2 :
  durable w ->
  lastProcessed (progress w) < i ->
  progress w2 = progress w ->
  postCountSinceLastSave w2 = postCountSinceLastSave w ->
  progress_json (disk w2) = progress_json (disk w) ->
  unsavedItems (trace w2) = S (unsavedItems (trace w)) ->
  durable (advanced postsData i w2).
Proof.
  intros [H1 H2 H3 H4 H5] Hlt Hp Hc Hj Hu. unfold advanced, unsavedItems in *.
  destruct (_ || _) eqn:Hsave.
  - split; cbn; try lia; try reflexivity.
    unfold unsavedItems. rewrite unsavedFrom_app. cbn. lia.
  - apply orb_false_iff in Hsave as [Hs _].
    split; cbn; rewrite ?Hp, ?Hc, ?Hj, ?Hu; try lia; try assumption.
Qed.

Lemma durable_recorded i post e w w2 :
  durable w ->
  progress w2 = progress w ->
  postCountSinceLastSave w2 = postCountSinceLastSave w ->
  durable (recorded i post e w2).
Proof.
  intros [H1 H2 H3 H4 H5] Hp Hc.
  split; cbn; rewrite ?Hc; try lia; try reflexivity.
  unfold unsavedItems. rewrite unsavedFrom_app. cbn. lia.
Qed.

Lemma durable_aborted i post e w w2 :
  durable w ->
  progress w2 = progress w ->
  postCountSinceLastSave w2 = postCountSinceLastSave w ->
  durable (aborted i post e w2).
Proof.
  intros [H1 H2 H3 H4 H5] Hp Hc.
  split; cbn; rewrite ?Hc; try lia; try reflexivity.
  unfold unsavedItems. rewrite !unsavedFrom_app. cbn. lia.
Qed.

Lemma durable_started d : durable (started blogger_listed d).
Proof.
  unfold started. destruct (0 <? _)%nat; split; cbn; try lia; reflexivity.
Qed.

Lemma durable_finalized w : durable w -> durable (finalized w).
Proof.
  intros [H1 H2 H3 H4 H5]. unfold finalized.
  destruct (0 <? _)%nat; split; cbn; try assumption;
    unfold unsavedItems in *; rewrite ?unsavedFrom_app; cbn; assumption.
Qed.

Lemma durable_crashed e w : durable w -> durable (crashed e w).
Proof.
  intros [H1 H2 H3 H4 H5].
  split; cbn; try assumption.
  unfold unsavedItems in *. rewrite ?unsavedFrom_app. cbn. assumption.
Qed.

(** Every iteration keeps the invariant and leaves the cursor below the
    next index. *)
Lemma loopBody_durable postsData i w :
  durable w -> lastProcessed (progress w) < i ->
  durable (snd (loopBody blogger_insert postsData i w)) /\
  lastProcessed (progress (snd (loopBody blogger_insert postsData i w))) < i + 1.
Proof.
  intros Hd Hlt.
  destruct (loopBody_cases blogger_insert postsData i w)
    as [(e & ->)|(post & _ & [(_ & ->)|(Hu & ms & _ & _ & H)])]; cbn [snd].
  - split; [exact Hd|lia].
  - split.
    + apply durable_paced. apply (durable_advanced _ _ w); try assumption; try reflexivity.
      rewrite <- (retried_nil post (entered i w)). apply unsaved_retried.
    + rewrite paced_progress. unfold advanced. destruct (_ || _); cbn; lia.
  - cbv zeta in H. destruct H as [->|[(e & _ & ->)|(e & _ & ->)]]; cbn [snd].
    + split.
      * apply durable_paced. apply (durable_advanced _ _ w); try assumption; try reflexivity.
        unfold unsavedItems. cbn [published trace]. rewrite unsavedFrom_app.
        fold (unsavedItems (trace (retried post ms (entered i w)))).
        rewrite unsaved_retried. reflexivity.
      * rewrite paced_progress. unfold advanced. destruct (_ || _); cbn; lia.
    + split.
      * apply durable_paced. apply (durable_recorded _ _ _ w); try assumption; reflexivity.
      * rewrite paced_progress. cbn. lia.
    + split.
      * apply (durable_aborted _ _ _ w); try assumption; reflexivity.
      * cbn. lia.
Qed.

Lemma forLoop_durable postsData i w :
  durable w -> lastProcessed (progress w) < i ->
  durable (snd (forLoop blogger_insert postsData i w)).
Proof.
  intros Hd Hlt.
  apply (forLoop_rule blogger_insert postsData
           (fun i w => durable w /\ lastProcessed (progress w) < i)
           (fun _ w => durable w)); [tauto| |auto].
  clear. intros i w _ [Hd Hlt].
  destruct (loopBody_durable postsData i w Hd Hlt) as [H1 H2].
  destruct (loopBody blogger_insert postsData i w) as [[[]|e|c] w1]; cbn [snd] in *; auto.
Qed.

End Durable.

(** X7. However a run ends, [progress.json] is at most 4 items behind:
    the trace enters at most 4 items after its last save of
    [progress.json].  The failed list in the file is the one in memory
    (no failure record is ever only in memory), and the cursor in the
    file is not ahead of the cursor in memory. *)
Theorem progress_loss_bounded (blogger_insert : nat -> RequestBody -> InsertResult)
    (blogger_listed : list string) (d : Disk) :
  let w := snd (script blogger_insert blogger_listed (boot d)) in
  let saved := default (mkProgress (-1) []) (progress_json (disk w)) in
  (unsavedItems (trace w) <= 4)%nat /\
  failed saved = failed (progress w) /\
  lastProcessed saved <= lastProcessed (progress w).
Proof.
  cbv zeta.
  assert (H : durable (snd (script blogger_insert blogger_listed (boot d)))).
  { rewrite script_run. cbv zeta.
    pose proof (forLoop_durable blogger_insert (default [] (posts_json d))
                  (lastProcessed (default (mkProgress (-1) []) (progress_json d)) + 1)
                  (started blogger_listed d) (durable_started blogger_listed d)) as H.
    rewrite started_progress in H. specialize (H ltac:(lia)).
    destruct (forLoop _ _ _ _) as [[[]|e|c] wl]; cbn [snd] in *.
    - apply durable_finalized, H.
    - apply durable_crashed, H.
    - exact H. }
  destruct H as [H1 H2 H3 H4 H5]. split; [lia|]. split; assumption.
Qed.

(** ** Runs that publish nothing, and runs in which nothing fails *)

Section WholeRuns.

Variable blogger_insert : nat -> RequestBody -> InsertResult.
Variable blogger_listed : list string.

Lemma insertCalls_finalized w : insertCalls (trace (finalized w)) = insertCalls (trace w).
Proof.
  destruct (finalized_trace w) as (evs & -> & _ & _ & H).
  rewrite insertCalls_app, H. lia.
Qed.

Lemma at_index_drop postsData i entry :
  at_index postsData i = Some entry ->
  drop (Z.to_nat i) postsData = entry :: drop (Z.to_nat (i + 1)) postsData.
Proof.
  unfold at_index. destruct (i <? 0) eqn:H0; [discriminate|]. intros H.
  replace (Z.to_nat (i + 1)) with (S (Z.to_nat i)) by lia.
  apply drop_S. exact H.
Qed.

Lemma stores_ids_json w w' :
  stores w = stores w' -> posted_ids_json (disk w) = posted_ids_json (disk w').
Proof. unfold stores. intros H. injection H as _ _ H _. exact H. Qed.

Lemma failed_advanced postsData i w :
  failed (progress (advanced postsData i w)) = failed (progress w).
Proof. unfold advanced. destruct (_ || _); reflexivity. Qed.

(** The loop over posts whose titles are all known. *)
Lemma forLoop_all_known postsData start w0 :
  (forall j, start <= j < Z.of_nat (length postsData) ->
     exists post, at_index postsData j = Some (Post post) /\
                  JsSet.has (postedIds w0) (title post) ||
                  JsSet.has (existingTitles w0) (title post) = true) ->
  fst (forLoop blogger_insert postsData start w0) = Ret tt /\
  stores (snd (forLoop blogger_insert postsData start w0)) = stores w0 /\
  insertCalls (trace (snd (forLoop blogger_insert postsData start w0))) =
    insertCalls (trace w0) /\
  failed (progress (snd (forLoop blogger_insert postsData start w0))) =
    failed (progress w0).
Proof.
  intros Hall.
  apply (forLoop_rule blogger_insert postsData
           (fun i w => start <= i /\ stores w = stores w0 /\
                       insertCalls (trace w) = insertCalls (trace w0) /\
                       failed (progress w) = failed (progress w0))
           (fun r w => r = Ret tt /\ stores w = stores w0 /\
                       insertCalls (trace w) = insertCalls (trace w0) /\
                       failed (progress w) = failed (progress w0))).
  - intros i w _ (_ & H). split; [reflexivity|exact H].
  - intros i w Hi (Hs & Hst & Hc & Hf).
    destruct (Hall i ltac:(lia)) as (post & Hp & Hk).
    assert (Hk' : JsSet.has (postedIds (entered i w)) (title post) ||
                  JsSet.has (existingTitles (entered i w)) (title post) = true).
    { pose proof Hst as Hst'. unfold stores in Hst'. injection Hst' as E1 E2 _ _.
      cbn [entered set_trace postedIds existingTitles]. rewrite E1, E2. exact Hk. }
    rewrite (loopBody_returned _ _ _ post w Skipped (entered i w) Hp
               (retry_known _ _ _ _ Hk')).
    split; [lia|]. split; [|split].
    + rewrite stores_paced, stores_advanced. exact Hst.
    + rewrite insertCalls_paced, insertCalls_advanced. cbn [entered set_trace trace].
      rewrite insertCalls_app, Hc. cbn. lia.
    + rewrite paced_progress, failed_advanced. exact Hf.
  - split; [lia|]. repeat split.
Qed.

(** The loop against a service that accepts every insert. *)
Lemma forLoop_all_accepted postsData start w0 :
  (forall n rb, exists d, blogger_insert n rb = Inserted d) ->
  0 <= start ->
  (forall j, start <= j < Z.of_nat (length postsData) -> wellFormedAt postsData j) ->
  let w' := snd (forLoop blogger_insert postsData start w0) in
  fst (forLoop blogger_insert postsData start w0) = Ret tt /\
  (postedIds w', existingTitles w') =
    fold_left publishNew (drop (Z.to_nat start) postsData) (postedIds w0, existingTitles w0) /\
  (insertCalls (trace w') + length (postedIds w0) =
   insertCalls (trace w0) + length (postedIds w'))%nat /\
  failed (progress w') = failed (progress w0).
Proof.
  intros Hacc H0 Hwf. cbv zeta.
  set (target := fold_left publishNew (drop (Z.to_nat start) postsData)
                   (postedIds w0, existingTitles w0)).
  apply (forLoop_rule blogger_insert postsData
           (fun i w => start <= i /\
                       fold_left publishNew (drop (Z.to_nat i) postsData)
                         (postedIds w, existingTitles w) = target /\
                       (insertCalls (trace w) + length (postedIds w0) =
                        insertCalls (trace w0) + length (postedIds w))%nat /\
                       failed (progress w) = failed (progress w0))
           (fun r w => r = Ret tt /\
                       (postedIds w, existingTitles w) = target /\
                       (insertCalls (trace w) + length (postedIds w0) =
                        insertCalls (trace w0) + length (postedIds w))%nat /\
                       failed (progress w) = failed (progress w0))).
  - intros i w Hi (_ & Ht & H). split; [reflexivity|]. split; [|exact H].
    rewrite drop_ge in Ht by lia. exact Ht.
  - intros i w Hi (Hs & Ht & Hc & Hf).
    destruct (Hwf i ltac:(lia)) as (post & Hp).
    rewrite (at_index_drop _ _ _ Hp) in Ht. cbn [fold_left publishNew fst snd] in Ht.
    destruct (JsSet.has (postedIds w) (title post) ||
              JsSet.has (existingTitles w) (title post)) eqn:Hk.
    + rewrite (loopBody_returned _ _ _ post w Skipped (entered i w) Hp
                 (retry_known blogger_insert post 1 (entered i w) Hk)).
      assert (Hst : stores (paced postsData i (advanced postsData i (entered i w))) = stores w)
        by (rewrite stores_paced, stores_advanced; reflexivity).
      unfold stores in Hst. injection Hst as -> -> _ _.
      split; [lia|]. split; [exact Ht|]. split.
      * rewrite insertCalls_paced, insertCalls_advanced. cbn [entered set_trace trace].
        rewrite insertCalls_app. cbn. lia.
      * rewrite paced_progress, failed_advanced. exact Hf.
    + destruct (Hacc (insertCalls (trace (entered i w))) (bodyOf post)) as (d & Hd).
      rewrite (loopBody_returned _ _ _ post w (Success d) (published post (entered i w)) Hp
                 (retry_inserted blogger_insert post 1 (entered i w) d Hk Hd)).
      assert (Hst : stores (paced postsData i
                              (advanced postsData i (published post (entered i w)))) =
                    stores (published post (entered i w)))
        by (rewrite stores_paced, stores_advanced; reflexivity).
      unfold stores in Hst. injection Hst as -> -> _ _.
      cbn [published entered set_trace postedIds existingTitles].
      split; [lia|]. split; [exact Ht|]. split.
      * rewrite insertCalls_paced, insertCalls_advanced.
        cbn [published entered set_trace trace].
        rewrite !insertCalls_app. cbn.
        apply orb_false_iff in Hk as [Hk _].
        unfold JsSet.add. rewrite Hk, length_app. cbn. lia.
      * rewrite paced_progress, failed_advanced. exact Hf.
  - split; [lia|]. split; [reflexivity|]. split; [lia|reflexivity].
Qed.

End WholeRuns.

(** X8. Running the script again is safe: when every element of
    [posts.json] after the cursor is a post whose title is in
    [posted_ids.json] or among the titles [fetchExistingTitles] returns,
    the run enters all of them, makes no insert call, leaves
    [posted_ids.json] as it is, records no failure and exits with
    code 0. *)
Theorem rerun_publishes_nothing (blogger_insert : nat -> RequestBody -> InsertResult)
    (blogger_listed : list string) (d : Disk) :
  let postsData := default [] (posts_json d) in
  let progress0 := default (mkProgress (-1) []) (progress_json d) in
  (forall j, lastProcessed progress0 < j < Z.of_nat (length postsData) ->
     exists post, at_index postsData j = Some (Post post) /\
                  (title post ∈ default [] (posted_ids_json d) \/
                   title post ∈ fetchedTitles blogger_listed d)) ->
  let run := script blogger_insert blogger_listed (boot d) in
  exitCode run = Some 0 /\
  insertCalls (trace (snd run)) = 0%nat /\
  posted_ids_json (disk (snd run)) = posted_ids_json d /\
  itemsOf (trace (snd run)) =
    seqZ (lastProcessed progress0 + 1)
         (Z.of_nat (length postsData) - (lastProcessed progress0 + 1)) /\
  failed (progress (snd run)) = failed progress0.
Proof.
  cbv zeta. intros Hall.
  assert (Hk : forall j,
             lastProcessed (default (mkProgress (-1) []) (progress_json d)) + 1 <= j <
             Z.of_nat (length (default [] (posts_json d))) ->
             exists post, at_index (default [] (posts_json d)) j = Some (Post post) /\
               JsSet.has (postedIds (started blogger_listed d)) (title post) ||
               JsSet.has (existingTitles (started blogger_listed d)) (title post) = true).
  { intros j Hj. destruct (Hall j ltac:(lia)) as (post & Hp & Hin).
    exists post. split; [exact Hp|]. apply orb_true_iff.
    destruct Hin as [Hin|Hin]; [left|right]; apply JsSetFacts.has_true.
    - unfold started. destruct (0 <? _)%nat; cbn;
        apply JsSetFacts.elem_of_of_array; exact Hin.
    - unfold started. destruct (0 <? _)%nat; cbn; exact Hin. }
  destruct (forLoop_all_known blogger_insert _ _ _ Hk) as (Hr & Hst & Hc & Hf).
  assert (Hex : exitCode (script blogger_insert blogger_listed (boot d)) = Some 0).
  { rewrite script_run. cbv zeta. destruct (forLoop _ _ _ _) as [r wl].
    cbn [fst] in Hr. subst r. reflexivity. }
  split; [exact Hex|].
  destruct (script_events blogger_insert blogger_listed d)
    as (rl & wl & evs & Hrun & Hx & Hi & _).
  cbv zeta in Hx, Hi, Hrun. rewrite Hi.
  rewrite (lr_items_all _ _ _ _ _ _ Hrun (proj1 Hx Hex)).
  rewrite script_run. cbv zeta.
  destruct (forLoop _ _ _ _) as [r wl']. cbn [fst snd] in *. subst r. cbn [snd].
  rewrite insertCalls_finalized, Hc.
  destruct (started_trace blogger_listed d) as (_ & _ & Hc0).
  destruct (started_disk blogger_listed d) as (_ & _ & Hids & _).
  split; [exact Hc0|]. split; [|split; [reflexivity|]].
  - rewrite (stores_ids_json _ _ (stores_finalized wl')), (stores_ids_json _ _ Hst).
    exact Hids.
  - destruct (finalized_disk wl') as (_ & _ & ->). rewrite Hf, started_progress. reflexivity.
Qed.

Lemma rerun_publishes_nothing_witness :
  let postsData := [Post (samplePost "A"); Post (samplePost "B")] in
  let first := script alwaysInserted [] (boot (freshDisk postsData)) in
  let d := mkDisk (Some postsData) (posted_ids_json (disk (snd first))) None
                  (existing_titles_json (disk (snd first))) None [] in
  let run := script (alwaysRejected (mkError "down" CodeUndefined [])) [] (boot d) in
  posted_ids_json d = Some ["A"; "B"] /\
  exitCode run = Some 0 /\
  insertCalls (trace (snd run)) = 0%nat /\
  itemsOf (trace (snd run)) = [0; 1].
Proof.
  cbv zeta. split; [vm_compute; reflexivity|].
  refine ((fun H => conj (proj1 H) (conj (proj1 (proj2 H))
                     (proj1 (proj2 (proj2 (proj2 H))))))
          (rerun_publishes_nothing (alwaysRejected (mkError "down" CodeUndefined [])) []
             (mkDisk (Some [Post (samplePost "A"); Post (samplePost "B")])
                     (posted_ids_json (disk (snd (script alwaysInserted []
                        (boot (freshDisk [Post (samplePost "A"); Post (samplePost "B")]))))))
                     None
                     (existing_titles_json (disk (snd (script alwaysInserted []
                        (boot (freshDisk [Post (samplePost "A"); Post (samplePost "B")]))))))
                     None []) _)).
  intros j Hj. cbn in Hj.
  assert (Hj' : j = 0 \/ j = 1) by lia.
  destruct Hj' as [-> | ->]; eexists; (split; [reflexivity|]); left; vm_compute.
  - apply list_elem_of_here.
  - apply list_elem_of_further, list_elem_of_here.
Defined.

(** X9. Against a service that accepts every insert, a run over
    well-formed posts publishes exactly the titles that are new: it
    exits with code 0, the two sets end as the left-to-right fold of
    [publishNew] over the posts after the cursor (so a title that occurs
    twice in the batch is published once), the insert calls are as many
    as the titles that joined [postedIds], and no failure is recorded. *)
Theorem accepted_run_publishes_new (blogger_insert : nat -> RequestBody -> InsertResult)
    (blogger_listed : list string) (d : Disk) :
  let postsData := default [] (posts_json d) in
  let progress0 := default (mkProgress (-1) []) (progress_json d) in
  let ids0 := JsSet.of_array (default [] (posted_ids_json d)) in
  (forall n rb, exists data, blogger_insert n rb = Inserted data) ->
  -1 <= lastProcessed progress0 ->
  (forall j, lastProcessed progress0 < j < Z.of_nat (length postsData) ->
             wellFormedAt postsData j) ->
  let run := script blogger_insert blogger_listed (boot d) in
  exitCode run = Some 0 /\
  (postedIds (snd run), existingTitles (snd run)) =
    fold_left publishNew (drop (Z.to_nat (lastProcessed progress0 + 1)) postsData)
      (ids0, fetchedTitles blogger_listed d) /\
  (insertCalls (trace (snd run)) + length ids0 = length (postedIds (snd run)))%nat /\
  failed (progress (snd run)) = failed progress0.
Proof.
  cbv zeta. intros Hacc Hcur Hwf.
  destruct (forLoop_all_accepted blogger_insert (default [] (posts_json d))
              (lastProcessed (default (mkProgress (-1) []) (progress_json d)) + 1)
              (started blogger_listed d) Hacc ltac:(lia))
    as (Hr & Hsets & Hc & Hf).
  { intros j Hj. apply Hwf. lia. }
  rewrite script_run. cbv zeta.
  destruct (forLoop _ _ _ _) as [r wl]. cbn [fst snd] in *. subst r.
  cbn [exitCode fst snd]. split; [reflexivity|].
  assert (Hs0 : postedIds (started blogger_listed d) =
                JsSet.of_array (default [] (posted_ids_json d)) /\
                existingTitles (started blogger_listed d) = fetchedTitles blogger_listed d).
  { unfold started. destruct (0 <? _)%nat; split; reflexivity. }
  destruct Hs0 as [Hi0 He0]. rewrite Hi0, He0 in Hsets. rewrite Hi0 in Hc.
  destruct (started_trace blogger_listed d) as (_ & _ & Hc0). rewrite Hc0 in Hc.
  assert (E : postedIds (finalized wl) = postedIds wl /\
              existingTitles (finalized wl) = existingTitles wl)
    by (unfold finalized; destruct (0 <? _)%nat; split; reflexivity).
  destruct E as [E1 E2]. rewrite E1, E2, insertCalls_finalized.
  split; [exact Hsets|]. split; [lia|].
  destruct (finalized_disk wl) as (_ & _ & ->). rewrite Hf, started_progress. reflexivity.
Qed.

Lemma accepted_run_publishes_new_witness :
  let postsData := [Post (samplePost "A"); Post (samplePost "B"); Post (samplePost "A")] in
  let run := script alwaysInserted ["B"] (boot (freshDisk postsData)) in
  exitCode run = Some 0 /\
  postedIds (snd run) = ["A"] /\
  existingTitles (snd run) = ["B"; "A"] /\
  insertCalls (trace (snd run)) = 1%nat.
Proof.
  cbv zeta.
  assert (Hacc : forall (n : nat) (rb : RequestBody),
             exists data, alwaysInserted n rb = Inserted data)
    by (intros n rb; exists sampleData; reflexivity).
  assert (Hcur : -1 <= lastProcessed (default (mkProgress (-1) []) None)) by (cbn; lia).
  assert (Hwf : forall j,
             lastProcessed (default (mkProgress (-1) []) None) < j < Z.of_nat 3 ->
             wellFormedAt [Post (samplePost "A"); Post (samplePost "B");
                           Post (samplePost "A")] j).
  { intros j Hj. cbn in Hj. assert (Hj' : j = 0 \/ j = 1 \/ j = 2) by lia.
    destruct Hj' as [->|[->| ->]]; eexists; reflexivity. }
  destruct (accepted_run_publishes_new alwaysInserted ["B"]
              (freshDisk [Post (samplePost "A"); Post (samplePost "B"); Post (samplePost "A")])
              Hacc Hcur Hwf) as (H1 & H2 & H3 & _).
  split; [exact H1|].
  split; [exact (f_equal fst H2)|]. split; [exact (f_equal snd H2)|].
  vm_compute. reflexivity.
Defined.



(** * Properties of the earlier revision (lines 356-579) *)

Section EarlierFacts.

Variable blogger_insert : nat -> RequestBody -> InsertResult.

Lemma earlier_tryPublish_known postData w :
  JsSet.has (postedIds w) (title postData) = true ->
  Earlier.tryPublish blogger_insert postData w = (Ret Skipped, w).
Proof.
  intros H. unfold Earlier.tryPublish, bind, get, ret. rewrite H. reflexivity.
Qed.

Lemma earlier_tryPublish_inserted postData w d :
  JsSet.has (postedIds w) (title postData) = false ->
  blogger_insert (insertCalls (trace w)) (bodyOf postData) = Inserted d ->
  Earlier.tryPublish blogger_insert postData w =
  (Ret (Success d), published_earlier postData w).
Proof.
  intros H Hi.
  unfold Earlier.tryPublish, blogger_posts_insert, bind, get. rewrite H. cbn.
  fold (bodyOf postData). rewrite Hi. cbn.
  unfold published_earlier. cbn. rewrite <- !app_assoc. reflexivity.
Qed.

Lemma earlier_tryPublish_rejected postData w e :
  JsSet.has (postedIds w) (title postData) = false ->
  blogger_insert (insertCalls (trace w)) (bodyOf postData) = Rejected e ->
  Earlier.tryPublish blogger_insert postData w = (Throw e, rejected postData w).
Proof.
  intros H Hi.
  unfold Earlier.tryPublish, blogger_posts_insert, bind, get. rewrite H. cbn.
  fold (bodyOf postData). rewrite Hi. reflexivity.
Qed.

Lemma earlier_wait_values msg :
  Earlier.wait msg = 3600000 \/ Earlier.wait msg = 20000.
Proof. unfold Earlier.wait. destruct (Str.includes _ _); [left|right]; reflexivity. Qed.

(** The shape of every call of the earlier executor for a title that is
    not in [postedIds]. *)
Lemma earlier_retry_shape postData (n : nat) :
  forall attempt w,
    Z.to_nat (RATE_LIMIT.MAX_RETRIES - attempt) = n ->
    JsSet.has (postedIds w) (title postData) = false ->
    exists ms,
      (length ms <= n)%nat /\
      Forall (fun m => m = 3600000 \/ m = 20000) ms /\
      ((exists d, Earlier.postToBloggerWithRetry blogger_insert postData attempt w =
                  (Ret (Success d), published_earlier postData (retried postData ms w))) \/
       (exists e, Earlier.postToBloggerWithRetry blogger_insert postData attempt w =
                  (Throw e, rejected postData (retried postData ms w)) /\
                  blogger_insert (insertCalls (trace (retried postData ms w)))
                    (bodyOf postData) = Rejected e)).
Proof.
  induction n as [n IH] using lt_wf_ind. intros attempt w Hn Hu.
  rewrite (Earlier.postToBloggerWithRetry_equation_1 blogger_insert postData attempt).
  unfold try_catch.
  destruct (blogger_insert (insertCalls (trace w)) (bodyOf postData)) as [d|e] eqn:Hi.
  { rewrite (earlier_tryPublish_inserted _ _ d) by assumption.
    exists []. rewrite retried_nil. split; [cbn; lia|]. split; [constructor|].
    left. exists d. reflexivity. }
  rewrite (earlier_tryPublish_rejected _ _ e) by assumption. cbv zeta.
  destruct (decide _) as [[Hr Ha]|Hno].
  2:{ exists []. rewrite retried_nil. split; [cbn; lia|]. split; [constructor|].
      right. exists e. split; [reflexivity|exact Hi]. }
  assert (Hlt : (Z.to_nat (RATE_LIMIT.MAX_RETRIES - (attempt + 1)) < n)%nat)
    by (unfold RATE_LIMIT.MAX_RETRIES in *; lia).
  set (w1 := set_trace (trace w ++ [EInsert (bodyOf postData);
                                    ESleep (Earlier.wait (message e))]) w).
  destruct (IH _ Hlt (attempt + 1) w1 eq_refl Hu) as (ms & Hlen & Hms & Hres).
  exists (Earlier.wait (message e) :: ms).
  unfold w1 in Hres. rewrite retried_cons in Hres.
  split; [cbn; lia|]. split; [constructor; [apply earlier_wait_values|exact Hms]|].
  assert (Hstep : forall r,
            Earlier.postToBloggerWithRetry blogger_insert postData (attempt + 1) w1 = r ->
            bind (sleep (Earlier.wait (message e)))
              (fun _ => Earlier.postToBloggerWithRetry blogger_insert postData (attempt + 1))
              (rejected postData w) = r).
  { intros r <-. unfold bind, sleep, emit, modify, rejected, w1. cbn.
    rewrite <- app_assoc. reflexivity. }
  destruct Hres as [(d & Hr')|(e' & Hr' & He')].
  - left. exists d. apply Hstep. exact Hr'.
  - right. exists e'. split; [apply Hstep; exact Hr'|exact He'].
Qed.

End EarlierFacts.

(** X11. The earlier executor, for a title that is not in [postedIds],
    waits at most 4 times from attempt 1, each time 3600000 ms or
    20000 ms, and issues one insert call more than it waits.  When it
    throws, what it throws is the very rejection the service gave to its
    last insert call: there is no exhaustion error. *)
Theorem earlier_retry_policy (blogger_insert : nat -> RequestBody -> InsertResult)
    (postData : PostData) (w : World) :
  JsSet.has (postedIds w) (title postData) = false ->
  let r := Earlier.postToBloggerWithRetry blogger_insert postData 1 w in
  exists evs,
    trace (snd r) = trace w ++ evs /\
    (length (sleepsOf evs) <= 4)%nat /\
    Forall (fun m => m = 3600000 \/ m = 20000) (sleepsOf evs) /\
    insertCalls evs = S (length (sleepsOf evs)) /\
    (forall e, fst r = Throw e ->
       blogger_insert (insertCalls (trace w) + length (sleepsOf evs))%nat
         (bodyOf postData) = Rejected e).
Proof.
  intros Hu. cbv zeta.
  destruct (earlier_retry_shape blogger_insert postData _ 1 w eq_refl Hu)
    as (ms & Hlen & Hms & Hres).
  change (Z.to_nat (RATE_LIMIT.MAX_RETRIES - 1)) with 4%nat in Hlen.
  pose proof (sleepsOf_attempts postData ms) as Hs.
  pose proof (insertCalls_attempts postData ms) as Hc.
  destruct Hres as [(d & ->)|(e & -> & He)];
    cbn [fst snd published_earlier rejected retried set_trace trace].
  - eexists. rewrite <- app_assoc. split; [reflexivity|].
    rewrite Hs, Hc. cbn. rewrite app_nil_r.
    split; [lia|]. split; [exact Hms|]. split; [lia|]. discriminate.
  - eexists. rewrite <- app_assoc. split; [reflexivity|].
    rewrite Hs, Hc. cbn. rewrite app_nil_r.
    split; [lia|]. split; [exact Hms|]. split; [lia|].
    intros e0 [= <-].
    cbn [retried set_trace trace] in He.
    rewrite insertCalls_app in He.
    rewrite <- (app_nil_r (flat_map _ ms)), Hc in He. cbn in He.
    rewrite Nat.add_0_r in He. exact He.
Qed.

Lemma earlier_retry_policy_witness :
  let reset := mkError "read ECONNRESET" (CodeStr "ECONNRESET") [] in
  let r := Earlier.postToBloggerWithRetry (alwaysRejected reset) (samplePost "X") 1
             (boot emptyDisk) in
  fst r = Throw reset /\
  sleepsOf (trace (snd r)) = [20000; 20000; 20000; 20000] /\
  exists evs,
    trace (snd r) = trace (boot emptyDisk) ++ evs /\
    (length (sleepsOf evs) <= 4)%nat.
Proof.
  cbv zeta. split; [vm_compute; reflexivity|]. split; [vm_compute; reflexivity|].
  destruct (earlier_retry_policy
              (alwaysRejected (mkError "read ECONNRESET" (CodeStr "ECONNRESET") []))
              (samplePost "X") (boot emptyDisk) eq_refl) as (evs & H1 & H2 & _).
  exists evs. split; assumption.
Defined.

Section EarlierDriver.

Variable blogger_insert : nat -> RequestBody -> InsertResult.
Variable blogger_listed : list string.

Lemma earlier_forLoop_step postsData i w :
  i < Z.of_nat (length postsData) ->
  Earlier.forLoop blogger_insert postsData i w =
  match Earlier.loopBody blogger_insert postsData i w with
  | (Ret _, w1) => Earlier.forLoop blogger_insert postsData (i + 1) w1
  | (Throw e, w1) => (Throw e, w1)
  | (Exit c, w1) => (Exit c, w1)
  end.
Proof.
  intros H. rewrite (Earlier.forLoop_equation_1 blogger_insert postsData i).
  destruct (decide _); [reflexivity|lia].
Qed.

Lemma earlier_forLoop_ge postsData i w :
  Z.of_nat (length postsData) <= i ->
  Earlier.forLoop blogger_insert postsData i w = (Ret tt, w).
Proof.
  intros H. rewrite (Earlier.forLoop_equation_1 blogger_insert postsData i).
  destruct (decide _); [lia|reflexivity].
Qed.

Lemma earlier_loopBody_duplicate postsData i post w :
  at_index postsData i = Some (Post post) ->
  JsSet.has (existingTitles w) (title post) || JsSet.has (postedIds w) (title post) = true ->
  Earlier.loopBody blogger_insert postsData i w = (Ret tt, deduplicated i post w).
Proof.
  intros Hp Hk. unfold Earlier.loopBody. rewrite Hp.
  unfold bind at 1. unfold emit, modify. fold (entered i w).
  unfold bind at 1. unfold try_catch, Earlier.tryItem.
  unfold bind at 1. unfold get at 1.
  change (JsSet.has (existingTitles (entered i w)) (title post) ||
          JsSet.has (postedIds (entered i w)) (title post))
    with (JsSet.has (existingTitles w) (title post) || JsSet.has (postedIds w) (title post)).
  rewrite Hk.
  unfold deduplicated, Earlier.savePostedIds, saveJsonFile, emit, modify, bind, get, ret.
  cbn. rewrite <- app_assoc. reflexivity.
Qed.

Lemma itemsOf_attempts (rb : RequestBody) ms :
  itemsOf (flat_map (fun m => [EInsert rb; ESleep m]) ms) = [].
Proof. induction ms as [|m ms IH]; cbn; [reflexivity|exact IH]. Qed.

(** An iteration of the earlier driver on a well-formed post always
    returns, and enters that item only. *)
Lemma earlier_loopBody_returns postsData i post w :
  at_index postsData i = Some (Post post) ->
  exists w',
    Earlier.loopBody blogger_insert postsData i w = (Ret tt, w') /\
    itemsOf (trace w') = itemsOf (trace w) ++ [i].
Proof.
  intros Hp.
  destruct (JsSet.has (existingTitles w) (title post) ||
            JsSet.has (postedIds w) (title post)) eqn:Hk.
  { rewrite (earlier_loopBody_duplicate _ _ post) by assumption.
    eexists. split; [reflexivity|]. cbn. rewrite itemsOf_app. reflexivity. }
  assert (Hu : JsSet.has (postedIds (entered i w)) (title post) = false).
  { apply orb_false_iff in Hk as [_ Hk]. exact Hk. }
  destruct (earlier_retry_shape blogger_insert post _ 1 (entered i w) eq_refl Hu)
    as (ms & _ & _ & Hres).
  unfold Earlier.loopBody. rewrite Hp.
  unfold bind at 1. unfold emit, modify. fold (entered i w).
  unfold bind at 1. unfold try_catch, Earlier.tryItem.
  unfold bind at 1. unfold get at 1.
  change (JsSet.has (existingTitles (entered i w)) (title post) ||
          JsSet.has (postedIds (entered i w)) (title post))
    with (JsSet.has (existingTitles w) (title post) || JsSet.has (postedIds w) (title post)).
  rewrite Hk. unfold bind at 1.
  destruct Hres as [(d & ->)|(e & -> & _)].
  - unfold saveJsonFile, sleep, emit, modify, bind, get, ret. cbn.
    clear Hk Hu.
    destruct ((5 <=? _) || _); cbn; destruct (i <? _); cbn;
      eexists; (split; [reflexivity|]); cbn;
      rewrite ?itemsOf_app, itemsOf_attempts; cbn; rewrite ?app_nil_r; reflexivity.
  - unfold Earlier.catchItem, saveJsonFile, sendWhatsAppMessage, sleep, emit, modify,
      bind, get, ret. cbn.
    destruct (i <? _); cbn; eexists; (split; [reflexivity|]); cbn;
      rewrite ?itemsOf_app, itemsOf_attempts; cbn; rewrite ?app_nil_r; reflexivity.
Qed.

(** The earlier loop over well-formed posts always runs to its end. *)
Lemma earlier_forLoop_returns postsData (n : nat) :
  forall i w,
    Z.to_nat (Z.of_nat (length postsData) - i) = n ->
    (forall j, i <= j < Z.of_nat (length postsData) -> wellFormedAt postsData j) ->
    fst (Earlier.forLoop blogger_insert postsData i w) = Ret tt /\
    itemsOf (trace (snd (Earlier.forLoop blogger_insert postsData i w))) =
      itemsOf (trace w) ++ seqZ i (Z.of_nat (length postsData) - i).
Proof.
  induction n as [|n IH]; intros i w Hn Hwf.
  - rewrite earlier_forLoop_ge by lia. rewrite seqZ_nil by lia.
    rewrite app_nil_r. split; reflexivity.
  - rewrite earlier_forLoop_step by lia.
    destruct (Hwf i ltac:(lia)) as (post & Hp).
    destruct (earlier_loopBody_returns postsData i post w Hp) as (w1 & -> & Hi).
    destruct (IH (i + 1) w1 ltac:(lia)) as [Hr2 Hi2].
    { intros j Hj. apply Hwf. lia. }
    split; [exact Hr2|]. rewrite Hi2, Hi, (seqZ_step i) by lia.
    rewrite <- app_assoc. reflexivity.
Qed.

Lemma earlier_finalize_run w :
  exists w', Earlier.finalize w = (Exit 0, w') /\ itemsOf (trace w') = itemsOf (trace w).
Proof.
  unfold Earlier.finalize, saveJsonFile, sendWhatsAppMessage, emit, modify, bind, get, ret,
    process_exit.
  destruct (failed (progress w)) as [|f l]; cbn; eexists; (split; [reflexivity|]); cbn;
    rewrite ?itemsOf_app; cbn; rewrite ?app_nil_r; reflexivity.
Qed.

End EarlierDriver.

(** X12. In the earlier revision, a post whose title is in
    [existingTitles] or in [postedIds] is handled by the driver: no
    insert call and no wait; the title joins [postedIds], which is
    written to [posted_ids.json]; the cursor and [progress.json] stay as
    they are, and the loop goes on with the next index. *)
Theorem earlier_duplicate_branch (blogger_insert : nat -> RequestBody -> InsertResult)
    (postsData : list Entry) (i : Z) (post : PostData) (w : World) :
  at_index postsData i = Some (Post post) ->
  title post ∈ existingTitles w \/ title post ∈ postedIds w ->
  let w' := snd (Earlier.loopBody blogger_insert postsData i w) in
  Earlier.forLoop blogger_insert postsData i w =
    Earlier.forLoop blogger_insert postsData (i + 1) w' /\
  trace w' = trace w ++ [EItem i; ESave (SavedPostedIds (postedIds w'))] /\
  title post ∈ postedIds w' /\
  posted_ids_json (disk w') = Some (postedIds w') /\
  progress w' = progress w /\
  progress_json (disk w') = progress_json (disk w).
Proof.
  intros Hp Hk. cbv zeta.
  assert (Hk' : JsSet.has (existingTitles w) (title post) ||
                JsSet.has (postedIds w) (title post) = true).
  { apply orb_true_iff. destruct Hk as [Hk|Hk]; [left|right];
      apply JsSetFacts.has_true; exact Hk. }
  rewrite earlier_forLoop_step by (apply at_index_lt in Hp; lia).
  rewrite (earlier_loopBody_duplicate _ _ _ post) by assumption. cbn [snd].
  split; [reflexivity|]. split; [reflexivity|]. split.
  - cbn. apply JsSetFacts.elem_of_add. left. reflexivity.
  - repeat split.
Qed.

Lemma earlier_duplicate_branch_witness :
  let postsData := [Post (samplePost "A"); Post (samplePost "B")] in
  let w := set_existingTitles ["A"] (boot emptyDisk) in
  let w' := snd (Earlier.loopBody alwaysInserted postsData 0 w) in
  trace w' = [EItem 0; ESave (SavedPostedIds ["A"])] /\
  posted_ids_json (disk w') = Some ["A"] /\
  progress w' = mkProgress (-1) [].
Proof.
  cbv zeta.
  assert (Hin : title (samplePost "A") ∈ existingTitles (set_existingTitles ["A"] (boot emptyDisk))
                \/ title (samplePost "A") ∈ postedIds (set_existingTitles ["A"] (boot emptyDisk))).
  { left. apply list_elem_of_here. }
  destruct (earlier_duplicate_branch alwaysInserted
              [Post (samplePost "A"); Post (samplePost "B")] 0 (samplePost "A")
              (set_existingTitles ["A"] (boot emptyDisk)) eq_refl Hin)
    as (_ & H1 & _ & H2 & H3 & _).
  split; [exact H1|]. split; [exact H2|]. exact H3.
Defined.

(** X13. The earlier revision never ends a run early: over a readable
    [posts.json] whose elements after the cursor are well-formed posts,
    whatever the service answers, the run enters every index after the
    cursor in order and exits with code 0. *)
Theorem earlier_never_aborts (blogger_insert : nat -> RequestBody -> InsertResult)
    (blogger_listed : list string) (d : Disk) (postsData : list Entry) :
  posts_json d = Some postsData ->
  let start := lastProcessed (default (mkProgress (-1) []) (progress_json d)) + 1 in
  (forall j, start <= j < Z.of_nat (length postsData) -> wellFormedAt postsData j) ->
  let run := Earlier.postToBlogger blogger_insert blogger_listed (boot d) in
  exitCode run = Some 0 /\
  itemsOf (trace (snd run)) = seqZ start (Z.of_nat (length postsData) - start).
Proof.
  intros Hposts start Hwf. cbv zeta.
  assert (H : exists w',
             Earlier.postToBlogger blogger_insert blogger_listed (boot d) = (Exit 0, w') /\
             itemsOf (trace w') = seqZ start (Z.of_nat (length postsData) - start)).
  { unfold Earlier.postToBlogger. unfold bind at 1. unfold get at 1.
    cbn [boot disk]. rewrite Hposts.
    unfold loadJsonFile, Earlier.loadPostedIds, Earlier.fetchExistingTitles,
      sendWhatsAppMessage, emit, modify. unfold bind at 1 2 3 4 5 6 7 8 9 10 11.
    unfold get, ret. cbn [boot disk set_progress set_postedIds set_existingTitles
                           set_postCountSinceLastSave set_trace trace postedIds
                           existingTitles progress postCountSinceLastSave app].
    fold start.
    match goal with
    | |- context [Earlier.forLoop blogger_insert postsData start ?w0] =>
        destruct (earlier_forLoop_returns blogger_insert postsData _ start w0 eq_refl Hwf)
          as [Hr Hi];
        destruct (Earlier.forLoop blogger_insert postsData start w0) as [r wl]
    end.
    cbn [fst snd] in Hr, Hi. subst r. cbn in Hi.
    destruct (earlier_finalize_run wl) as (w' & -> & Hf).
    exists w'. split; [reflexivity|]. rewrite Hf. exact Hi. }
  destruct H as (w' & -> & Hi). split; [reflexivity|exact Hi].
Qed.

Lemma earlier_never_aborts_witness :
  let quota := mkError "quotaExceeded" (CodeNum 403) [] in
  let postsData := [Post (samplePost "A"); Post (samplePost "B")] in
  let run := Earlier.postToBlogger (alwaysRejected quota) [] (boot (freshDisk postsData)) in
  exitCode run = Some 0 /\
  itemsOf (trace (snd run)) = [0; 1] /\
  insertCalls (trace (snd run)) = 10%nat /\
  List.map index (failed (progress (snd run))) = [0; 1].
Proof.
  cbv zeta.
  assert (Hwf : forall j,
             lastProcessed (default (mkProgress (-1) []) None) + 1 <= j < Z.of_nat 2 ->
             wellFormedAt [Post (samplePost "A"); Post (samplePost "B")] j).
  { intros j Hj. cbn in Hj. assert (Hj' : j = 0 \/ j = 1) by lia.
    destruct Hj' as [-> | ->]; eexists; reflexivity. }
  destruct (earlier_never_aborts (alwaysRejected (mkError "quotaExceeded" (CodeNum 403) []))
              [] (freshDisk [Post (samplePost "A"); Post (samplePost "B")])
              [Post (samplePost "A"); Post (samplePost "B")] eq_refl Hwf) as [H1 H2].
  split; [exact H1|]. split; [exact H2|]. vm_compute. split; reflexivity.
Defined.

(** * Waiting through items that are skipped (current script) *)

Section SkippedWaits.

Variable blogger_insert : nat -> RequestBody -> InsertResult.
Variable blogger_listed : list string.





End SkippedWaits.


